(** * ts-fp: Failure, Option, Result and ActionState

    A shallow embedding of the TypeScript sources [failure.ts] (the
    [Failure] class, the failure helpers and [Option]), the [Result]
    class and [action.ts], together with the properties stated about
    them.

    JavaScript objects have an identity, and [Failure.isEmpty] is an
    identity test against a singleton, so every object carries the
    reference it was allocated at.  Code that allocates ([new ...]),
    throws, or runs a caller-supplied function lives in a small
    state-and-exception monad over the [World]. *)

From Stdlib Require Import String Ascii List ZArith Bool Lia.
From Stdlib Require Import DecimalString.
Import ListNotations.

Local Open Scope string_scope.

(** ** JavaScript values *)

(** Object identity.  [Failure.EMPTY_INSTANCE] is created by a static
    initialiser when the class is defined, before any other code can
    run; every later [new] takes the next cell of the heap. *)
Inductive Ref : Type :=
| RStaticEmpty
| RHeap (n : nat).

Definition Ref_eqb (a b : Ref) : bool :=
  match a, b with
  | RStaticEmpty, RStaticEmpty => true
  | RHeap n, RHeap m => Nat.eqb n m
  | _, _ => false
  end.

(** The classes of the Failure taxonomy ([this.constructor]). *)
Inductive Kind : Type :=
| KFailure
| KApiFailure
| KAuthFailure
| KEntityAlreadyExists
| KEntityNotFound
| KEntityValidationFailed
| KIllegalArgument
| KIllegalState
| KInvalidRequest
| KOperationNotAllowed.

(** A JavaScript number holds an integer exactly up to 2^53 - 1
    ([Number.MAX_SAFE_INTEGER]). *)
Definition isSafeInteger (z : Z) : bool := (Z.abs z <=? 9007199254740991)%Z.

(** The values the library handles.  Strings are sequences of code
    units below 256; numbers are the safe integers and [NaN].
    [VObject] is a plain object: not an [Error], with no method that
    the library calls on a message (no [trim]), and that [String(o)]
    turns into [repr]; on the other two objects [String(o)] throws:
    [VThrowing] has a [toString] that throws [thrown], [VUnprintable]
    has none at all ([Object.create(null)]) and the engine throws a
    TypeError.  [VError] is a
    direct instance of [Error] with a string for message;
    [VOtherError] is any other [Error] that is not a [Failure]: an
    instance of a class called [name] ([TypeError], ...; as for the
    built-in classes, [name] is also its [name] property), with
    whatever its [message] property holds. *)
Inductive Value : Type :=
| VUndefined
| VNull
| VBool (b : bool)
| VNumber (z : Z) (safe : isSafeInteger z = true)
| VNaN
| VStr (s : string)
| VObject (r : Ref) (repr : string)
| VThrowing (r : Ref) (thrown : Value)
| VUnprintable (r : Ref)
| VError (r : Ref) (msg : string)
| VOtherError (r : Ref) (name : string) (msg : Value)
| VFailure (r : Ref) (k : Kind) (msg : string) (cause : Value).

(** A number written out; it has to be a safe integer to be read. *)
Notation "'VNum' z" := (VNumber z eq_refl) (at level 10, z at level 9).

(** An argument of a typed parameter that a JavaScript caller may
    still leave out. *)
Inductive Nullable (A : Type) : Type :=
| JNull
| JUndefined
| JSome (a : A).
Arguments JNull {A}.
Arguments JUndefined {A}.
Arguments JSome {A} a.

(** [!!v] *)
Definition truthy (v : Value) : bool :=
  match v with
  | VUndefined | VNull | VNaN => false
  | VBool b => b
  | VNumber z _ => negb (Z.eqb z 0)
  | VStr s => negb (String.eqb s "")
  | VObject _ _ | VThrowing _ _ | VUnprintable _ | VError _ _
  | VOtherError _ _ _ | VFailure _ _ _ _ => true
  end.

(** [v instanceof Error] *)
Definition instanceofError (v : Value) : bool :=
  match v with
  | VError _ _ | VOtherError _ _ _ | VFailure _ _ _ _ => true
  | _ => false
  end.

(** [v.message], for an [Error]. *)
Definition messageValue (v : Value) : Value :=
  match v with
  | VError _ m | VFailure _ _ m _ => VStr m
  | VOtherError _ _ m => m
  | _ => VUndefined
  end.

(** [v.message] where it is a string. *)
Definition messageOf (v : Value) : string :=
  match messageValue v with
  | VStr m => m
  | _ => ""
  end.

(** White space as [String.prototype.trim] sees it, among the code
    units below 256: TAB, LF, VT, FF, CR, SPACE and NBSP. *)
Definition isWhiteSpace (c : ascii) : bool :=
  let n := nat_of_ascii c in
  ((9 <=? n) && (n <=? 13) || (n =? 32) || (n =? 160))%nat.

Fixpoint trimStart (s : string) : string :=
  match s with
  | EmptyString => EmptyString
  | String c t => if isWhiteSpace c then trimStart t else s
  end.

Fixpoint trimEnd (s : string) : string :=
  match s with
  | EmptyString => EmptyString
  | String c t =>
      match trimEnd t with
      | EmptyString => if isWhiteSpace c then EmptyString else String c EmptyString
      | t' => String c t'
      end
  end.

Definition trim (s : string) : string := trimEnd (trimStart s).

(** [s.trim() !== ''] *)
Definition nonBlank (s : string) : bool := negb (String.eqb (trim s) "").

(** [this.constructor.name] of a Failure. *)
Definition kindName (k : Kind) : string :=
  match k with
  | KFailure => "Failure"
  | KApiFailure => "ApiFailure"
  | KAuthFailure => "AuthFailure"
  | KEntityAlreadyExists => "EntityAlreadyExists"
  | KEntityNotFound => "EntityNotFound"
  | KEntityValidationFailed => "EntityValidationFailed"
  | KIllegalArgument => "IllegalArgument"
  | KIllegalState => "IllegalState"
  | KInvalidRequest => "InvalidRequest"
  | KOperationNotAllowed => "OperationNotAllowed"
  end.

(** What [String(v)] does: it returns a text, or it throws, either a
    given value or a TypeError the engine makes. *)
Inductive Conversion : Type :=
| Text (s : string)
| ThrowsValue (e : Value)
| ThrowsTypeError.

(** [Error.prototype.toString]: the name and the message. *)
Definition errorText (name msg : string) : string :=
  if String.eqb name "" then msg
  else if String.eqb msg "" then name
  else name ++ ": " ++ msg.

(** [String(v)].  On a Failure this is [Failure.prototype.toString],
    which prints the class, the message and one level of the cause. *)
Fixpoint stringify (v : Value) : Conversion :=
  match v with
  | VUndefined => Text "undefined"
  | VNull => Text "null"
  | VBool true => Text "true"
  | VBool false => Text "false"
  | VNumber z _ => Text (NilZero.string_of_int (Z.to_int z))
  | VNaN => Text "NaN"
  | VStr s => Text s
  | VObject _ repr => Text repr
  | VThrowing _ e => ThrowsValue e
  | VUnprintable _ => ThrowsTypeError
  | VError _ m => Text (errorText "Error" m)
  | VOtherError _ name msg =>
      match msg with
      | VUndefined => Text (errorText name "")
      | _ =>
          match stringify msg with
          | Text m => Text (errorText name m)
          | c => c
          end
      end
  | VFailure RStaticEmpty _ _ _ => Text "Failure.EMPTY"
  | VFailure _ k m cause =>
      let open := kindName k ++ "{message='" ++ m ++ "'" in
      match cause with
      | VUndefined => Text (open ++ "}")
      | VError _ cm => Text (open ++ ", cause=Error('" ++ cm ++ "')}")
      | VFailure _ ck cm _ =>
          Text (open ++ ", cause=" ++ kindName ck ++ "('" ++ cm ++ "')}")
      | VOtherError _ name msg =>
          match stringify msg with
          | Text cm => Text (open ++ ", cause=" ++ name ++ "('" ++ cm ++ "')}")
          | c => c
          end
      | VNull | VBool _ | VNumber _ _ | VNaN | VStr _ | VObject _ _
      | VThrowing _ _ | VUnprintable _ =>
          match stringify cause with
          | Text c => Text (open ++ ", cause='" ++ c ++ "'}")
          | c => c
          end
      end
  end.

(** The text of [String(v)], where it returns one. *)
Definition textOf (v : Value) : string :=
  match stringify v with
  | Text s => s
  | _ => ""
  end.

(** The reference of an object; a primitive has none. *)
Definition refOf (v : Value) : option Ref :=
  match v with
  | VObject r _ | VThrowing r _ | VUnprintable r | VError r _
  | VOtherError r _ _ | VFailure r _ _ _ => Some r
  | _ => None
  end.

(** [a === b]: primitives by value ([NaN] equal to nothing), objects
    by reference. *)
Definition strictEq (a b : Value) : bool :=
  match refOf a, refOf b with
  | Some r, Some r' => Ref_eqb r r'
  | None, None =>
      match a, b with
      | VUndefined, VUndefined => true
      | VNull, VNull => true
      | VBool x, VBool y => Bool.eqb x y
      | VNumber x _, VNumber y _ => Z.eqb x y
      | VStr x, VStr y => String.eqb x y
      | _, _ => false
      end
  | _, _ => false
  end.

(** ** The world: heap and callback log *)

(** [next] is the first free heap cell.  [calls] counts how many times
    the library has invoked a function handed to it by the caller; it
    is ghost state, there to make "the function is not invoked" a
    statement about the world. *)
Record World : Type := mkWorld { next : nat; calls : nat }.

(** How a piece of code ends: normally, by [throw e], or suspended for
    ever on a promise that never settles. *)
Inductive Completion (A : Type) : Type :=
| Normal (a : A)
| Throw (e : Value)
| Suspended.
Arguments Normal {A} a.
Arguments Throw {A} e.
Arguments Suspended {A}.

Definition M (A : Type) : Type := World -> Completion A * World.

Definition ret {A} (a : A) : M A := fun w => (Normal a, w).

Definition throw {A} (e : Value) : M A := fun w => (Throw e, w).

Definition bind {A B} (c : M A) (k : A -> M B) : M B :=
  fun w =>
    match c w with
    | (Normal a, w') => k a w'
    | (Throw e, w') => (Throw e, w')
    | (Suspended, w') => (Suspended, w')
    end.

Notation "x <- c ;; k" := (bind c (fun x => k))
  (at level 61, c at next level, right associativity).
Notation "c ;;; k" := (bind c (fun _ => k))
  (at level 61, right associativity).

(** [try { body } catch (error) { handler }] *)
Definition tryCatch {A} (body : M A) (handler : Value -> M A) : M A :=
  fun w =>
    match body w with
    | (Throw e, w') => handler e w'
    | r => r
    end.

(** [new ...]: take the next heap cell. *)
Definition alloc : M Ref :=
  fun w => (Normal (RHeap (next w)), mkWorld (S (next w)) (calls w)).

(** A function supplied by the caller.  It may do anything a function
    can do: allocate, throw, call back into the library. *)
Definition Fn (A B : Type) : Type := A -> M B.

(** The library calls [f(a)]. *)
Definition invoke {A B} (f : Fn A B) (a : A) : M B :=
  fun w => f a (mkWorld (next w) (S (calls w))).

(** The state of a promise once the job queue has run. *)
Inductive Promise (A : Type) : Type :=
| Fulfilled (a : A)
| Rejected (e : Value)
| Pending.
Arguments Fulfilled {A} a.
Arguments Rejected {A} e.
Arguments Pending {A}.

(** [async function]: the body never throws to the caller; whatever it
    does settles the promise it returns. *)
Definition async {A} (body : M A) : M (Promise A) :=
  fun w =>
    match body w with
    | (Normal a, w') => (Normal (Fulfilled a), w')
    | (Throw e, w') => (Normal (Rejected e), w')
    | (Suspended, w') => (Normal Pending, w')
    end.

(** [await p] *)
Definition await {A} (p : Promise A) : M A :=
  fun w =>
    match p with
    | Fulfilled a => (Normal a, w)
    | Rejected e => (Throw e, w)
    | Pending => (Suspended, w)
    end.

(** What a supplier typed [() => T | Promise<T>] hands back. *)
Inductive Awaitable : Type :=
| Plain (v : Value)
| Deferred (p : Promise Value).

(** [new Error(message)] *)
Definition newError (message : string) : M Value :=
  r <- alloc ;; ret (VError r message).

(** The engine throws a TypeError of its own making (the texts used
    below are V8's). *)
Definition throwTypeError {A} (message : string) : M A :=
  r <- alloc ;; throw (VOtherError r "TypeError" (VStr message)).

(** [String(v)], and the conversion a template literal or the [Error]
    constructor applies. *)
Definition ToString (v : Value) : M string :=
  match stringify v with
  | Text s => ret s
  | ThrowsValue e => throw e
  | ThrowsTypeError => throwTypeError "Cannot convert object to primitive value"
  end.

(** [m.trim()], where [callee] is how the source writes [m]: a string
    is trimmed, and no other value has a [trim] to call. *)
Definition callTrim (callee : string) (m : Value) : M string :=
  match m with
  | VStr s => ret (trim s)
  | _ => throwTypeError (callee ++ ".trim is not a function")
  end.

(** [e instanceof Error && e.message && e.message.trim() !== ''],
    where [callee] is how the source writes [e.message]. *)
Definition hasNonBlankMessage (callee : string) (e : Value) : M bool :=
  if instanceofError e && truthy (messageValue e)
  then t <- callTrim callee (messageValue e) ;; ret (negb (String.eqb t ""))
  else ret false.

(** ** failure.ts: the Failure class *)

Module Failure.

(** An instance: its identity, its class, and the two fields
    [message] (inherited from [Error]) and [_cause]. *)
Record t : Type := mk {
  ref : Ref;
  kind : Kind;
  message : string;
  cause : Value
}.

Definition toValue (f : t) : Value :=
  VFailure (ref f) (kind f) (message f) (cause f).

(** [Failure.isFailure(obj)], with the narrowing it gives. *)
Definition isFailure (v : Value) : option t :=
  match v with
  | VFailure r k m c => Some (mk r k m c)
  | _ => None
  end.

(** The constructor, run for class [k]: [super(message || "An
    unknown failure occurred")], then [this._cause = cause]. *)
Definition new (k : Kind) (message : string) (cause : Value) : M t :=
  r <- alloc ;;
  ret (mk r k
         (if String.eqb message "" then "An unknown failure occurred"
          else message)
         cause).

(** [private static readonly EMPTY_INSTANCE = new Failure('no
    failure', undefined)] *)
Definition EMPTY_INSTANCE : t := mk RStaticEmpty KFailure "no failure" VUndefined.

Definition empty : t := EMPTY_INSTANCE.

Definition wrap (message : string) (cause : Value) : M t :=
  new KFailure message cause.

Definition ofMessage (message : string) : M t :=
  new KFailure message VUndefined.

(** [this === Failure.EMPTY_INSTANCE] *)
Definition isEmpty (f : t) : bool := Ref_eqb (ref f) (ref EMPTY_INSTANCE).

Definition isPresent (f : t) : bool := negb (isEmpty f).

(** The constructor handed a message that need not be a string (as
    [fromCause] does): [super(message || "An unknown failure
    occurred")] makes the object and then converts the message. *)
Definition construct (k : Kind) (message : Value) (cause : Value) : M t :=
  r <- alloc ;;
  m <- ToString (if truthy message then message
                 else VStr "An unknown failure occurred") ;;
  ret (mk r k m cause).

(** [message || (cause instanceof Error ? cause.message
                 : String(cause || 'unknown cause'))] *)
Definition effectiveMessage (cause : Value) (message : Nullable string) : M Value :=
  let fromCause :=
    if instanceofError cause then ret (messageValue cause)
    else s <- ToString (if truthy cause then cause else VStr "unknown cause") ;;
         ret (VStr s) in
  match message with
  | JSome m => if String.eqb m "" then fromCause else ret (VStr m)
  | _ => fromCause
  end.

Definition fromCause (cause : Value) (message : Nullable string) : M t :=
  match isFailure cause with
  | Some f =>
      if isPresent f then ret f
      else m <- effectiveMessage cause message ;; construct KFailure m cause
  | None => m <- effectiveMessage cause message ;; construct KFailure m cause
  end.

Definition unwrap (this : t) : t :=
  match isFailure (cause this) with
  | Some c => if isPresent c then c else this
  | None => this
  end.


Definition ifPresent (this : t) (action : Nullable (Fn t unit)) : M unit :=
  match action with
  | JSome act => if isPresent this then invoke act this else ret tt
  | _ =>
      e <- newError "Action provided to ifPresent is null/undefined" ;;
      throw e
  end.

Definition ifEmpty (this : t) (runnable : Nullable (Fn unit unit)) : M unit :=
  match runnable with
  | JSome run => if isEmpty this then invoke run tt else ret tt
  | _ =>
      e <- newError "Runnable provided to ifEmpty is null/undefined" ;;
      throw e
  end.

Definition inspectPresent (this : t) (action : Nullable (Fn t unit)) : M t :=
  ifPresent this action ;;; ret this.

Definition inspectEmpty (this : t) (runnable : Nullable (Fn unit unit)) : M t :=
  ifEmpty this runnable ;;; ret this.

(** The message the [catch] block of [Failure.of] derives. *)
Definition errorMessage (fallback : string) (error : Value) : M string :=
  has <- hasNonBlankMessage "error.message" error ;;
  if has then ret (messageOf error)
  else
    match error with
    | VStr s => if nonBlank s then ret s else ret fallback
    | _ => ret fallback
    end.

(** [static async of(runnable)] ([of] is reserved in Rocq). *)
Definition of_ (runnable : Nullable (Fn unit Awaitable)) : M (Promise t) :=
  async
    match runnable with
    | JSome run =>
        tryCatch
          (result <- invoke run tt ;;
           match result with
           | Deferred p => await p ;;; ret empty
           | Plain _ => ret empty
           end)
          (fun error =>
             errorMessage <- errorMessage
                               "An unexpected error occurred during runnable execution."
                               error ;;
             wrap errorMessage error)
    | _ =>
        e <- newError "Runnable provided to Failure.of is null/undefined" ;;
        throw e
    end.

(** [equals(other)] *)
Definition equals (this : t) (other : Value) : bool :=
  if strictEq other (toValue this) then true
  else
    match isFailure other with
    | None => false
    | Some o =>
        if isEmpty this || isEmpty o then isEmpty this && isEmpty o
        else String.eqb (message this) (message o)
             && strictEq (cause this) (cause o)
    end.

End Failure.

(** ** failures/IllegalArgument.ts *)

Module IllegalArgument.

(** [new IllegalArgument(message)]: [super(message)]. *)
Definition new (message : string) : M Failure.t :=
  Failure.new KIllegalArgument message VUndefined.

End IllegalArgument.

(** [throw new IllegalArgument(message)] *)
Definition throwIllegalArgument {A} (message : string) : M A :=
  e <- IllegalArgument.new message ;; throw (Failure.toValue e).

(** ** failure.ts: the failure helpers *)

Definition emptyFailure : Failure.t := Failure.empty.

Definition failureWithMessage (message : Nullable string) : M Failure.t :=
  match message with
  | JSome m =>
      if String.eqb (trim m) ""
      then throwIllegalArgument
             "Failure message cannot be null, undefined, or blank when created directly."
      else Failure.ofMessage m
  | _ =>
      throwIllegalArgument
        "Failure message cannot be null, undefined, or blank when created directly."
  end.

(** The [finalMessage] that [wrapFailure] settles on. *)
Definition finalMessage (message : Nullable string) (cause : Value) : M string :=
  let fromCause :=
    has <- hasNonBlankMessage "cause.message" cause ;;
    if has then ret (messageOf cause)
    else ret "An unexpected error occurred." in
  match message with
  | JSome m =>
      if negb (String.eqb m "") && nonBlank m then ret m else fromCause
  | _ => fromCause
  end.

Definition wrapFailure (message : Nullable string) (cause : Value) : M Failure.t :=
  finalMessage <- finalMessage message cause ;;
  Failure.wrap finalMessage cause.

Definition wrapExistingFailure (message : Nullable string)
    (originalFailure : Nullable Failure.t) : M Failure.t :=
  match originalFailure with
  | JSome f => wrapFailure message (Failure.toValue f)
  | _ => throwIllegalArgument "Original failure to wrap cannot be null or undefined."
  end.

(** ** failure.ts: Option

    Options and Results are never compared by reference anywhere in
    the library, so they are plain records and constructing one does
    not touch the heap. *)

Module Option.

(** [private readonly value: T | null] *)
Record t : Type := mk { value : Value }.

Definition isNull (v : Value) : bool :=
  match v with VNull => true | _ => false end.

Definition isNullish (v : Value) : bool :=
  match v with VNull | VUndefined => true | _ => false end.

Definition EMPTY_INSTANCE : t := mk VNull.

Definition empty : t := EMPTY_INSTANCE.

Definition ok (value : Value) : M t :=
  if isNullish value
  then
    e <- newError "Option.of received null or undefined. Use Option.orUndefined instead." ;;
    throw e
  else ret (mk value).

Definition orUndefinedOrNullable (value : Value) : t :=
  if isNullish value then empty else mk value.

(** [this.value !== null] *)
Definition isOk (this : t) : bool := negb (isNull (value this)).

(** [this.value === null] *)
Definition isEmpty (this : t) : bool := isNull (value this).

Definition get (this : t) : M Value :=
  if negb (truthy (value this))
  then
    f <- Failure.new KFailure "Attempted to get value from an empty Option." VUndefined ;;
    throw (Failure.toValue f)
  else ret (value this).

Definition getOrElse (this : t) (defaultValue : Value) : Value :=
  if negb (isNull (value this)) then value this else defaultValue.

Definition map (this : t) (mapper : Fn Value Value) : M t :=
  if negb (isNull (value this))
  then v <- invoke mapper (value this) ;; ok v
  else ret empty.

Definition flatMap (this : t) (mapper : Fn Value t) : M t :=
  if negb (isNull (value this))
  then invoke mapper (value this)
  else ret empty.

(** [static async of(supplier)] *)
Definition of_ (supplier : Nullable (Fn unit Awaitable)) : M (Promise t) :=
  async
    match supplier with
    | JSome sup =>
        tryCatch
          (result <- invoke sup tt ;;
           match result with
           | Deferred p => awaitedValue <- await p ;; ok awaitedValue
           | Plain v => ok v
           end)
          (fun _ => ret empty)
    | _ =>
        e <- newError "Runnable provided to Failure.of is null/undefined" ;;
        throw e
    end.

End Option.

(** ** The Result class *)

Module Result.

(** [_value?: T | undefined] and [_failure?: Failure | undefined];
    the constructor stores whatever it is given, so a JavaScript
    caller can also leave [null] in [_failure]. *)
Record t : Type := mk {
  _failure : Nullable Failure.t;
  _value : Value
}.

Definition ok (value : Value) : t := mk JUndefined value.

(** The static [Result.failure(failure)]. *)
Definition failure (failure : Nullable Failure.t) : t := mk failure VUndefined.

Definition failureWithMessage (message : string) : M t :=
  f <- Failure.ofMessage message ;; ret (failure (JSome f)).

(** [this._failure === undefined] *)
Definition isOk (this : t) : bool :=
  match _failure this with JUndefined => true | _ => false end.

(** [this._failure !== undefined] *)
Definition isFailure (this : t) : bool :=
  match _failure this with JUndefined => false | _ => true end.

(** [this._failure ? this._failure : Failure.empty()] *)
Definition failureOrEmpty (this : t) : Failure.t :=
  match _failure this with
  | JSome f => f
  | _ => Failure.empty
  end.

(** The instance method [failure()]. *)
Definition failure' (this : t) : M Failure.t :=
  if isOk this
  then throwIllegalArgument "Cannot get failure from a successful Result."
  else ret (failureOrEmpty this).

(** [this._failure] as a value. *)
Definition failureValue (this : t) : Value :=
  match _failure this with
  | JSome f => Failure.toValue f
  | JNull => VNull
  | JUndefined => VUndefined
  end.

(** [`${this._failure?.message}`] *)
Definition failureMessageText (this : t) : string :=
  match _failure this with
  | JSome f => Failure.message f
  | _ => "undefined"
  end.

Definition expect (this : t) (message : string) : M Value :=
  if negb (truthy (_value this))
  then
    f <- Failure.wrap (message ++ ": " ++ failureMessageText this)
                      (failureValue this) ;;
    throw (Failure.toValue f)
  else ret (_value this).

Definition get (this : t) : M Value :=
  expect this "No value present, Result is in a failure state.".

Definition ifOk (this : t) (action : Nullable (Fn Value unit)) : M unit :=
  match action with
  | JSome act =>
      if truthy (_value this) then invoke act (_value this) else ret tt
  | _ => throwIllegalArgument "Action provided to ifOk is null/undefined"
  end.

Definition ifFailure (this : t) (action : Nullable (Fn Failure.t unit)) : M unit :=
  match action with
  | JSome act =>
      if isFailure this then invoke act (failureOrEmpty this) else ret tt
  | _ => throwIllegalArgument "Action provided to ifFailure is null/undefined"
  end.

Definition inspectOk (this : t) (action : Nullable (Fn Value unit)) : M t :=
  ifOk this action ;;; ret this.

Definition inspectFailure (this : t) (action : Nullable (Fn Failure.t unit)) : M t :=
  ifFailure this action ;;; ret this.

(** The message the [catch] block of [Result.of] derives. *)
Definition ofErrorMessage (error : Value) : M string :=
  has <- hasNonBlankMessage "error.message" error ;;
  if has then ret (messageOf error)
  else
    match error with
    | VStr s =>
        if nonBlank s then ret s
        else ret "An unexpected error occurred during supplier execution."
    | VFailure _ _ m _ => ret m
    | _ => ret "An unexpected error occurred during supplier execution."
    end.

(** [static async of(supplier)] *)
Definition of_ (supplier : Nullable (Fn unit Awaitable)) : M (Promise t) :=
  async
    match supplier with
    | JSome sup =>
        tryCatch
          (result <- invoke sup tt ;;
           match result with
           | Deferred p => awaitedValue <- await p ;; ret (ok awaitedValue)
           | Plain v => ret (ok v)
           end)
          (fun error =>
             errorMessage <- ofErrorMessage error ;;
             f <- Failure.wrap errorMessage error ;;
             ret (failure (JSome f)))
    | _ =>
        e <- IllegalArgument.new "Supplier provided to Result.of is null/undefined" ;;
        ret (failure (JSome e))
    end.

(** [this._failure ? this._failure : Failure.ofMessage("this is
    never called")] *)
Definition failureOrNeverCalled (this : t) : M Failure.t :=
  match _failure this with
  | JSome f => ret f
  | _ => Failure.ofMessage "this is never called"
  end.

Definition map (this : t) (mapper : Nullable (Fn Value Value)) : M t :=
  match mapper with
  | JSome fn =>
      if negb (truthy (_value this))
      then f <- failureOrNeverCalled this ;; ret (failure (JSome f))
      else
        tryCatch
          (v <- invoke fn (_value this) ;; ret (ok v))
          (fun error =>
             errorMessage <- Failure.errorMessage
                               "An error occurred during mapping." error ;;
             f <- Failure.wrap errorMessage error ;;
             ret (failure (JSome f)))
  | _ => throwIllegalArgument "Mapper provided to map is null/undefined"
  end.

Definition flatMap (this : t) (mapper : Nullable (Fn Value t)) : M t :=
  match mapper with
  | JSome fn =>
      if negb (truthy (_value this))
      then f <- failureOrNeverCalled this ;; ret (failure (JSome f))
      else
        tryCatch
          (invoke fn (_value this))
          (fun error =>
             errorMessage <- Failure.errorMessage
                               "An error occurred during flatMapping." error ;;
             f <- Failure.wrap errorMessage error ;;
             ret (failure (JSome f)))
  | _ => throwIllegalArgument "Mapper provided to flatMap is null/undefined"
  end.

End Result.

(** ** action.ts: ActionState *)

(** The discriminated union [OkResult<T> | FailureResult<T> |
    InitResult<T>]; [isOk] and [isFailure] are its two tag fields. *)
Inductive ActionState : Type :=
| OkResult (value : Value)
| InitResult
| FailureResult (failure : Failure.t).

Definition isOk (s : ActionState) : bool :=
  match s with OkResult _ => true | _ => false end.

Definition isFailure (s : ActionState) : bool :=
  match s with FailureResult _ => true | _ => false end.

Definition okState (value : Value) : ActionState := OkResult value.

Definition initState : ActionState := InitResult.

Definition failureState (error : Nullable Failure.t) : M ActionState :=
  match error with
  | JSome e =>
      if Failure.isEmpty e
      then throwIllegalArgument
             "Cannot create a failure Result with an empty Failure object. Use Result.ok() instead."
      else ret (FailureResult e)
  | _ =>
      throwIllegalArgument
        "Failure object cannot be null or undefined for an error Result."
  end.

(** ** action.ts: Pair *)

Module Pair.

(** A pair is compared by reference in [equals], so it carries its
    own. *)
Record t : Type := mk {
  ref : Ref;
  _first : Value;
  _second : Value
}.

(** What [equals] may be handed: a Pair, or anything else. *)
Inductive Other : Type :=
| IsPair (p : t)
| NotPair (v : Value).

(** [Pair.of(a, b)] *)
Definition of_ (a b : Value) : M t :=
  r <- alloc ;; ret (mk r a b).

Definition getFirst (this : t) : Value := _first this.

Definition getSecond (this : t) : Value := _second this.

Definition equals (this : t) (other : Other) : bool :=
  match other with
  | IsPair o =>
      if Ref_eqb (ref this) (ref o) then true
      else strictEq (_first this) (_first o) && strictEq (_second this) (_second o)
  | NotPair _ => false
  end.

End Pair.

(** ** failures/InvalidRequest.ts *)

Module InvalidRequest.

(** A [Map<string, string[]>], in insertion order. *)
Definition Reasons : Type := list (string * list string).

(** An instance: the Failure it is, and [_reasons]. *)
Record t : Type := mk {
  failure : Failure.t;
  _reasons : Reasons
}.

(** The shapes the unified constructor tells apart: a string with or
    without a second argument, a Map, anything else. *)
Inductive Args : Type :=
| KeyReason (key : string) (reason : option string)
| ReasonsMap (reasons : Reasons)
| Neither.

(** [`${k}: [${v.join(', ')}]`] *)
Definition entryText (e : string * list string) : string :=
  fst e ++ ": [" ++ String.concat ", " (snd e) ++ "]".

Definition new (args : Args) : M t :=
  match args with
  | KeyReason key (Some reason) =>
      f <- Failure.new KInvalidRequest
             ("Invalid request for key " ++ key ++ " with reasons " ++ reason)
             VUndefined ;;
      ret (mk f [(key, [reason])])
  | ReasonsMap reasons =>
      f <- Failure.new KInvalidRequest
             ("Invalid request with reasons {"
                ++ String.concat "; " (List.map entryText reasons) ++ "}")
             VUndefined ;;
      ret (mk f reasons)
  | _ =>
      e <- newError "Invalid arguments provided to InvalidRequest constructor." ;;
      throw e
  end.

End InvalidRequest.

(** ** Vocabulary of the properties *)

(** The world after one allocation; [calls] is untouched. *)
Definition allocated (w : World) : World := mkWorld (S (next w)) (calls w).

(** A mapper that would be seen if it ran: the call would be counted
    and it throws its argument. *)
Definition loudMapper {B} : Fn Value B := fun x => throw x.

(** The rules as the specification words them, to be compared with
    what the code computes. *)
Module Spec.

(** "an error with a non-blank message" *)
Definition errorWithNonBlankMessage (e : Value) : bool :=
  instanceofError e && nonBlank (messageOf e).

(** "a non-blank string" *)
Definition nonBlankString (e : Value) : option string :=
  match e with
  | VStr s => if nonBlank s then Some s else None
  | _ => None
  end.

(** "in order: e.message if e is an error with a non-blank message,
    e itself if e is a non-blank string, and otherwise a generic
    fallback" *)
Definition thrownMessage (fallback : string) (e : Value) : string :=
  if errorWithNonBlankMessage e then messageOf e
  else match nonBlankString e with
       | Some s => s
       | None => fallback
       end.

(** "the explicit message if non-blank after trimming; else
    cause.message if the cause is an error with a non-blank message;
    else exactly An unexpected error occurred." *)
Definition wrapMessage (message : Nullable string) (cause : Value) : string :=
  match message with
  | JSome m =>
      if nonBlank m then m
      else if errorWithNonBlankMessage cause then messageOf cause
      else "An unexpected error occurred."
  | _ =>
      if errorWithNonBlankMessage cause then messageOf cause
      else "An unexpected error occurred."
  end.

(** "the provided message if given, else cause.message if the cause
    is an error, else the stringified cause, else unknown cause" *)
Definition fromCauseMessage (cause : Value) (message : Nullable string) : string :=
  match message with
  | JSome m => m
  | _ =>
      if instanceofError cause then messageOf cause
      else match cause with
           | VUndefined | VNull => "unknown cause"
           | _ => textOf cause
           end
  end.

End Spec.



(** The constructor's [message || "An unknown failure occurred"]. *)
Definition orUnknownFailure (m : string) : string :=
  if String.eqb m "" then "An unknown failure occurred" else m.

(** The resolution order of [fromCause] with its tests made precise: a
    message counts when it is a non-empty string; the message of an
    error counts when it is truthy and is converted when it is not a
    string; any other cause is stringified when it is truthy; a text
    left empty, or a falsy message, gives way to the default.  The
    outcome is a text, or the conversion on the way throws. *)
Definition fromCauseText (cause : Value) (message : Nullable string) : Conversion :=
  match message with
  | JSome (String c m) => Text (String c m)
  | _ =>
      if instanceofError cause
      then if truthy (messageValue cause) then stringify (messageValue cause)
           else Text "An unknown failure occurred"
      else
        match stringify (if truthy cause then cause else VStr "unknown cause") with
        | Text s => Text (orUnknownFailure s)
        | c => c
        end
  end.

(** An Error whose [message] is truthy and is not a string: the one
    kind of value on which [e.message.trim()] is not a call of
    [String.prototype.trim]. *)
Definition messageNotAString (e : Value) : bool :=
  instanceofError e && truthy (messageValue e)
  && match messageValue e with VStr _ => false | _ => true end.

(** The TypeError the engine makes in world [w]. *)
Definition typeErrorAt (w : World) (message : string) : Value :=
  VOtherError (RHeap (next w)) "TypeError" (VStr message).

(** The ways a call can answer a missing argument. *)
Definition throwsIllegalArgument {A} (w : World) (r : Completion A * World) : Prop :=
  exists m, r = (Throw (VFailure (RHeap (next w)) KIllegalArgument m VUndefined),
                 allocated w).

Definition throwsPlainError {A} (w : World) (r : Completion A * World) : Prop :=
  exists m, r = (Throw (VError (RHeap (next w)) m), allocated w).

Definition rejectsWithPlainError {A} (w : World)
    (r : Completion (Promise A) * World) : Prop :=
  exists m, r = (Normal (Rejected (VError (RHeap (next w)) m)), allocated w).

Definition fulfilsWithIllegalArgumentResult (w : World)
    (r : Completion (Promise Result.t) * World) : Prop :=
  exists m,
    r = (Normal (Fulfilled
                   (Result.failure
                      (JSome (Failure.mk (RHeap (next w)) KIllegalArgument m VUndefined)))),
         allocated w).

(** A property of a call at both ways of leaving the argument out. *)
Definition onAbsent {A B} (call : Nullable A -> B) (P : B -> Prop) : Prop :=
  P (call JNull) /\ P (call JUndefined).

(** [failureObj] is absent, or is the empty sentinel. *)
Definition absentOrEmpty (e : Nullable Failure.t) : bool :=
  match e with
  | JSome f => Failure.isEmpty f
  | _ => true
  end.

(** How running a supplier typed [() => T | Promise<T>] ends, with
    the promise it may return taken to its settled state. *)
Inductive SupplierOutcome : Type :=
| Yields (v : Value)
| Raises (e : Value)
| Hangs.

Definition supplierOutcome (c : Completion Awaitable) : SupplierOutcome :=
  match c with
  | Normal (Plain v) | Normal (Deferred (Fulfilled v)) => Yields v
  | Throw e | Normal (Deferred (Rejected e)) => Raises e
  | Suspended | Normal (Deferred Pending) => Hangs
  end.

(** The world after the library has made one call. *)
Definition called (w : World) : World := mkWorld (next w) (S (calls w)).

(** A function without effects, as a callback. *)
Definition pureFn {A B} (f : A -> B) : Fn A B := fun a => ret (f a).

(** A call that ends by throwing. *)
Definition throws {A} (r : Completion A * World) : Prop :=
  exists e w', r = (Throw e, w').

(** A promise that ends up rejected. *)
Definition rejects {A} (r : Completion (Promise A) * World) : Prop :=
  exists e w', r = (Normal (Rejected e), w').


(** * Properties *)

(** Reference equality decides identity. *)
Lemma Ref_eqb_eq (a b : Ref) : Ref_eqb a b = true <-> a = b.
Proof.
  destruct a as [|n], b as [|m]; simpl; split; intro H;
    try reflexivity; try discriminate.
  - apply Nat.eqb_eq in H. now subst.
  - injection H as ->. apply Nat.eqb_refl.
Qed.

(** [Failure.empty().isEmpty()], and nothing on the heap is empty. *)
Lemma isEmpty_empty : Failure.isEmpty Failure.empty = true.
Proof. reflexivity. Qed.

Lemma isPresent_heap (n : nat) (k : Kind) (m : string) (c : Value) :
  Failure.isPresent (Failure.mk (RHeap n) k m c) = true.
Proof. reflexivity. Qed.

Lemma isPresent_isEmpty (f : Failure.t) :
  Failure.isPresent f = negb (Failure.isEmpty f).
Proof. reflexivity. Qed.

Lemma toValue_isFailure (f : Failure.t) :
  Failure.isFailure (Failure.toValue f) = Some f.
Proof. now destruct f. Qed.

(** A non-empty message survives the constructor's [message || ...]. *)
Lemma new_nonempty (k : Kind) (m : string) (c : Value) (w : World) :
  String.eqb m "" = false ->
  Failure.new k m c w = (Normal (Failure.mk (RHeap (next w)) k m c), allocated w).
Proof.
  intro H. unfold Failure.new, bind, alloc, ret, allocated. now rewrite H.
Qed.

Lemma append_nonempty_r (a b : string) :
  String.eqb b "" = false -> String.eqb (a ++ b) "" = false.
Proof.
  intro H. destruct a as [|c a]; simpl; [exact H | reflexivity].
Qed.

Lemma throwIllegalArgument_eq {A} (m : string) (w : World) :
  String.eqb m "" = false ->
  @throwIllegalArgument A m w =
    (Throw (VFailure (RHeap (next w)) KIllegalArgument m VUndefined), allocated w).
Proof.
  intro H. unfold throwIllegalArgument, IllegalArgument.new, bind.
  rewrite (new_nonempty _ _ _ _ H). reflexivity.
Qed.

(** ** The embedding on the examples of the sources *)

Example trim_example : trim "  a b  " = "a b" /\ nonBlank "   " = false.
Proof. split; reflexivity. Qed.

Example stringify_examples :
  stringify (VNum (-5)) = Text "-5"
  /\ stringify (Failure.toValue Failure.empty) = Text "Failure.EMPTY"
  /\ stringify (VFailure (RHeap 1) KFailure "Specific issue"
                  (VOtherError (RHeap 0) "TypeError" (VStr "Invalid type provided")))
     = Text "Failure{message='Specific issue', cause=TypeError('Invalid type provided')}"
  /\ stringify (VOtherError (RHeap 0) "TypeError" (VStr "Invalid type provided"))
     = Text "TypeError: Invalid type provided"
  /\ stringify (VFailure (RHeap 1) KFailure "Network error" VUndefined)
     = Text "Failure{message='Network error'}"
  /\ stringify (VFailure (RHeap 1) KFailure "bare" (VUnprintable (RHeap 0)))
     = ThrowsTypeError.
Proof. repeat split. Qed.

Example ok_get_example :
  Result.get (Result.ok (VNum 5)) (mkWorld 0 0) = (Normal (VNum 5), mkWorld 0 0).
Proof. reflexivity. Qed.

(** [Result.of(() => { throw new Error("boom") })] *)
Example of_boom_example :
  Result.of_ (JSome (fun _ => e <- newError "boom" ;; throw e)) (mkWorld 0 0) =
    (Normal (Fulfilled
               (Result.failure
                  (JSome (Failure.mk (RHeap 1) KFailure "boom" (VError (RHeap 0) "boom"))))),
     mkWorld 2 1).
Proof. reflexivity. Qed.

(** A mapper that runs is counted in [calls]. *)
Example map_invokes_example :
  Result.map (Result.ok (VNum 5)) (JSome (fun x => ret x)) (mkWorld 0 0) =
    (Normal (Result.ok (VNum 5)), mkWorld 0 1).
Proof. reflexivity. Qed.

Example unwrap_example :
  let inner := Failure.mk (RHeap 0) KFailure "Inner error" VUndefined in
  Failure.unwrap (Failure.mk (RHeap 1) KFailure "Outer error" (Failure.toValue inner))
  = inner.
Proof. reflexivity. Qed.

(** [Failure.of] on a thunk that returns, one that throws an Error,
    one whose promise is rejected with a string, and one that throws a
    blank string. *)
Example Failure_of_examples :
  Failure.of_ (JSome (fun _ => ret (Plain VUndefined))) (mkWorld 0 0) =
    (Normal (Fulfilled Failure.empty), mkWorld 0 1)
  /\ Failure.of_ (JSome (fun _ => e <- newError "Something went wrong!" ;; throw e))
       (mkWorld 0 0) =
     (Normal (Fulfilled (Failure.mk (RHeap 1) KFailure "Something went wrong!"
                           (VError (RHeap 0) "Something went wrong!"))),
      mkWorld 2 1)
  /\ Failure.of_ (JSome (fun _ => ret (Deferred (Rejected (VStr "late")))))
       (mkWorld 0 0) =
     (Normal (Fulfilled (Failure.mk (RHeap 0) KFailure "late" (VStr "late"))),
      mkWorld 1 1)
  /\ Failure.of_ (JSome (fun _ => throw (VStr "  "))) (mkWorld 0 0) =
     (Normal (Fulfilled
                (Failure.mk (RHeap 0) KFailure
                   "An unexpected error occurred during runnable execution."
                   (VStr "  "))),
      mkWorld 1 1).
Proof. repeat split. Qed.

(** [wrapFailure] with a message, and with a string as the cause. *)
Example wrapFailure_examples :
  wrapFailure (JSome "Something critical failed")
    (VError (RHeap 0) "Internal system error.") (mkWorld 1 0) =
    (Normal (Failure.mk (RHeap 1) KFailure "Something critical failed"
               (VError (RHeap 0) "Internal system error.")),
     mkWorld 2 0)
  /\ wrapFailure JNull (VStr "Just a string error message.") (mkWorld 1 0) =
     (Normal (Failure.mk (RHeap 1) KFailure "An unexpected error occurred."
                (VStr "Just a string error message.")),
      mkWorld 2 0).
Proof. split; reflexivity. Qed.

(** ** Result and falsy success values *)

Section FalsySuccess.

Variable v : Value.
Hypothesis Hfalsy : truthy v = false.

Lemma expect_falsy (message : string) (w : World) :
  Result.expect (Result.ok v) message w =
    (Throw (VFailure (RHeap (next w)) KFailure (message ++ ": undefined") VUndefined),
     allocated w).
Proof.
  unfold Result.expect, Result.ok; simpl. rewrite Hfalsy; simpl.
  unfold bind, Failure.wrap.
  rewrite new_nonempty by (now apply append_nonempty_r).
  reflexivity.
Qed.

Lemma map_falsy (fn : Fn Value Value) (w : World) :
  Result.map (Result.ok v) (JSome fn) w =
    (Normal (Result.failure
               (JSome (Failure.mk (RHeap (next w)) KFailure
                         "this is never called" VUndefined))),
     allocated w).
Proof.
  unfold Result.map, Result.ok; simpl. now rewrite Hfalsy.
Qed.

Lemma flatMap_falsy (fn : Fn Value Result.t) (w : World) :
  Result.flatMap (Result.ok v) (JSome fn) w =
    (Normal (Result.failure
               (JSome (Failure.mk (RHeap (next w)) KFailure
                         "this is never called" VUndefined))),
     allocated w).
Proof.
  unfold Result.flatMap, Result.ok; simpl. now rewrite Hfalsy.
Qed.

Lemma ifOk_falsy (action : Fn Value unit) (w : World) :
  Result.ifOk (Result.ok v) (JSome action) w = (Normal tt, w).
Proof.
  unfold Result.ifOk, Result.ok; simpl. now rewrite Hfalsy.
Qed.

End FalsySuccess.

(** C1. [Result.ok(v)] with a falsy [v] (such as [0], the empty string
    or [false]) reports [isOk() = true], yet [expect] and [get] throw a
    freshly wrapped Failure (message ["<prefix>: undefined"], no
    cause): the value is tested with [!this._value], so [expect],
    [get], [map], [flatMap] and [ifOk] all behave exactly as they do
    on a Result that holds no value at all. *)
Theorem C1_falsy_success_treated_as_absent
    (v : Value) (message : string) (w : World) (Hfalsy : truthy v = false) :
  Result.isOk (Result.ok v) = true
  /\ Result.expect (Result.ok v) message w =
       (Throw (VFailure (RHeap (next w)) KFailure (message ++ ": undefined") VUndefined),
        allocated w)
  /\ Result.get (Result.ok v) w =
       (Throw (VFailure (RHeap (next w)) KFailure
                 "No value present, Result is in a failure state.: undefined"
                 VUndefined),
        allocated w)
  /\ Result.expect (Result.ok v) message w =
       Result.expect (Result.ok VUndefined) message w
  /\ (forall fn, Result.map (Result.ok v) (JSome fn) w =
                 Result.map (Result.ok VUndefined) (JSome fn) w)
  /\ (forall fn, Result.flatMap (Result.ok v) (JSome fn) w =
                 Result.flatMap (Result.ok VUndefined) (JSome fn) w)
  /\ (forall action, Result.ifOk (Result.ok v) (JSome action) w = (Normal tt, w)).
Proof.
  split; [reflexivity|].
  split; [now apply expect_falsy|].
  split; [unfold Result.get; now rewrite expect_falsy|].
  split; [now rewrite !expect_falsy|].
  split; [intro fn; now rewrite !map_falsy|].
  split; [intro fn; now rewrite !flatMap_falsy|].
  intro action. now apply ifOk_falsy.
Qed.

(** The three values the quirk is known for. *)
Lemma C1_falsy_success_witness :
  (truthy (VNum 0) = false /\ truthy (VStr "") = false /\ truthy (VBool false) = false)
  /\ Result.isOk (Result.ok (VNum 0)) = true
  /\ Result.get (Result.ok (VNum 0)) (mkWorld 0 0) =
       (Throw (VFailure (RHeap 0) KFailure
                 "No value present, Result is in a failure state.: undefined"
                 VUndefined),
        mkWorld 1 0)
  /\ Result.get (Result.ok (VStr "")) (mkWorld 0 0) =
       Result.get (Result.ok (VNum 0)) (mkWorld 0 0)
  /\ Result.get (Result.ok (VBool false)) (mkWorld 0 0) =
       Result.get (Result.ok (VNum 0)) (mkWorld 0 0).
Proof.
  pose proof (C1_falsy_success_treated_as_absent (VNum 0) "" (mkWorld 0 0) eq_refl)
    as (Hok & _ & Hget & _).
  pose proof (C1_falsy_success_treated_as_absent (VStr "") "" (mkWorld 0 0) eq_refl)
    as (_ & _ & Hget1 & _).
  pose proof (C1_falsy_success_treated_as_absent (VBool false) "" (mkWorld 0 0) eq_refl)
    as (_ & _ & Hget2 & _).
  split; [now repeat split|].
  split; [exact Hok|].
  split; [exact Hget|].
  split; [now rewrite Hget1, Hget | now rewrite Hget2, Hget].
Defined.

(** ** Result.failure and the short circuit of map and flatMap *)

(** C2, on the code.  The static [Result.failure] checks nothing: it
    stores its argument as it is and cannot throw.  Built from a
    Failure [f] it is a failure Result whose [failure()] is [f]
    itself, so the held failure is present exactly when [f] is; built
    from [null] it is a failure Result whose [failure()] is the empty
    sentinel; built from [undefined] it is not a failure Result at
    all. *)
Theorem C2_failure_stores_its_argument (w : World) :
  (forall a, Result._failure (Result.failure a) = a
             /\ Result._value (Result.failure a) = VUndefined)
  /\ (forall f, Result.isFailure (Result.failure (JSome f)) = true
                /\ Result.failure' (Result.failure (JSome f)) w = (Normal f, w))
  /\ (Result.isFailure (Result.failure JNull) = true
      /\ Result.failure' (Result.failure JNull) w = (Normal Failure.empty, w))
  /\ Result.isOk (Result.failure JUndefined) = true.
Proof.
  split; [intro a; split; reflexivity|].
  split; [intro f; split; reflexivity|].
  split; [split; reflexivity | reflexivity].
Qed.

(** C2, as stated, fails: handed the empty sentinel, [Result.failure]
    rejects nothing and yields a failure Result that holds the empty
    sentinel. *)
Lemma C2_failure_accepts_empty_sentinel :
  Result.isFailure (Result.failure (JSome Failure.empty)) = true
  /\ Result.failure' (Result.failure (JSome Failure.empty)) (mkWorld 0 0) =
       (Normal Failure.empty, mkWorld 0 0)
  /\ Failure.isPresent Failure.empty = false.
Proof. repeat split. Qed.

(** C3. On a failure Result holding [f], [map(fn)] and [flatMap(fn)]
    return a Result whose [failure()] is [f] itself (same reference,
    same fields), and the world is left as it was: nothing is
    allocated and [fn] is not invoked. *)
Theorem C3_map_flatMap_short_circuit
    (f : Failure.t) (fn : Fn Value Value) (gn : Fn Value Result.t) (w : World) :
  Result.map (Result.failure (JSome f)) (JSome fn) w =
    (Normal (Result.failure (JSome f)), w)
  /\ (r <- Result.map (Result.failure (JSome f)) (JSome fn) ;; Result.failure' r) w =
       (Normal f, w)
  /\ Result.flatMap (Result.failure (JSome f)) (JSome gn) w =
       (Normal (Result.failure (JSome f)), w)
  /\ (r <- Result.flatMap (Result.failure (JSome f)) (JSome gn) ;; Result.failure' r) w =
       (Normal f, w).
Proof.
  split; [reflexivity|]. split; [reflexivity|].
  split; reflexivity.
Qed.

(** C4. On a success Result whose value is falsy, [map(fn)] and
    [flatMap(fn)] do not invoke [fn] ([calls] is unchanged) and return
    a failure Result holding a Failure allocated on the spot, with
    message ["this is never called"] and no cause. *)
Theorem C4_falsy_success_maps_to_never_called
    (v : Value) (fn : Fn Value Value) (gn : Fn Value Result.t) (w : World)
    (Hfalsy : truthy v = false) :
  let fresh := Failure.mk (RHeap (next w)) KFailure "this is never called" VUndefined in
  Result.map (Result.ok v) (JSome fn) w =
    (Normal (Result.failure (JSome fresh)), allocated w)
  /\ Result.flatMap (Result.ok v) (JSome gn) w =
       (Normal (Result.failure (JSome fresh)), allocated w)
  /\ calls (allocated w) = calls w
  /\ Failure.isPresent fresh = true
  /\ Failure.message fresh = "this is never called".
Proof.
  intro fresh.
  split; [now apply map_falsy|].
  split; [now apply flatMap_falsy|].
  repeat split.
Qed.

Lemma C4_falsy_success_witness :
  truthy (VNum 0) = false
  /\ Result.map (Result.ok (VNum 0)) (JSome loudMapper) (mkWorld 5 0) =
       (Normal (Result.failure
                  (JSome (Failure.mk (RHeap 5) KFailure "this is never called" VUndefined))),
        mkWorld 6 0)
  /\ Result.flatMap (Result.ok (VStr "")) (JSome loudMapper) (mkWorld 5 0) =
       (Normal (Result.failure
                  (JSome (Failure.mk (RHeap 5) KFailure "this is never called" VUndefined))),
        mkWorld 6 0).
Proof.
  split; [reflexivity|].
  split.
  - exact (proj1 (C4_falsy_success_maps_to_never_called
                    (VNum 0) loudMapper loudMapper (mkWorld 5 0) eq_refl)).
  - exact (proj1 (proj2 (C4_falsy_success_maps_to_never_called
                           (VStr "") loudMapper loudMapper (mkWorld 5 0) eq_refl))).
Defined.

(** ** Messages derived from a thrown value or a cause *)

Lemma trim_empty : trim "" = "".
Proof. reflexivity. Qed.

Lemma nonBlank_nonempty (s : string) :
  nonBlank s = true -> String.eqb s "" = false.
Proof.
  destruct s; [discriminate | reflexivity].
Qed.

Lemma nonempty_and_nonBlank (s : string) :
  negb (String.eqb s "") && nonBlank s = nonBlank s.
Proof.
  destruct (nonBlank s) eqn:E.
  - now rewrite (nonBlank_nonempty _ E).
  - apply andb_false_r.
Qed.

Lemma messageNotAString_false_cases (e : Value) :
  messageNotAString e = false ->
  instanceofError e && truthy (messageValue e) = false
  \/ exists s, messageValue e = VStr s.
Proof.
  unfold messageNotAString. intro H.
  destruct (instanceofError e && truthy (messageValue e)); [|now left].
  right. destruct (messageValue e); try discriminate H. now eexists.
Qed.

(** The test on the message, on a value whose message is a string or
    is falsy, and on one whose message is not. *)
Lemma hasNonBlankMessage_regular (callee : string) (e : Value) (w : World) :
  messageNotAString e = false ->
  hasNonBlankMessage callee e w = (Normal (Spec.errorWithNonBlankMessage e), w).
Proof.
  intro H. unfold hasNonBlankMessage, Spec.errorWithNonBlankMessage, messageOf.
  destruct (messageNotAString_false_cases e H) as [Hf | [s Hs]].
  - rewrite Hf. apply andb_false_iff in Hf as [Hf | Hf].
    + now rewrite Hf.
    + destruct (messageValue e); try (now rewrite andb_false_r).
      cbn in Hf. apply negb_false_iff, String.eqb_eq in Hf. subst.
      now rewrite andb_false_r.
  - rewrite Hs. destruct (instanceofError e); [|reflexivity].
    cbn [andb truthy]. destruct s as [|c s]; reflexivity.
Qed.

Lemma hasNonBlankMessage_odd (callee : string) (e : Value) (w : World) :
  messageNotAString e = true ->
  hasNonBlankMessage callee e w =
    (Throw (typeErrorAt w (callee ++ ".trim is not a function")), allocated w).
Proof.
  unfold messageNotAString, hasNonBlankMessage. intro H.
  apply andb_true_iff in H as [H1 H2]. rewrite H1.
  destruct (messageValue e); try discriminate H2; reflexivity.
Qed.

Lemma errorMessage_regular (fallback : string) (e : Value) (w : World) :
  messageNotAString e = false ->
  Failure.errorMessage fallback e w = (Normal (Spec.thrownMessage fallback e), w).
Proof.
  intro H. unfold Failure.errorMessage, bind.
  rewrite (hasNonBlankMessage_regular _ _ _ H).
  unfold Spec.thrownMessage, Spec.nonBlankString.
  destruct (Spec.errorWithNonBlankMessage e); [reflexivity|].
  destruct e; try reflexivity. now destruct (nonBlank s).
Qed.

Lemma errorMessage_odd (fallback : string) (e : Value) (w : World) :
  messageNotAString e = true ->
  Failure.errorMessage fallback e w =
    (Throw (typeErrorAt w "error.message.trim is not a function"), allocated w).
Proof.
  intro H. unfold Failure.errorMessage, bind.
  now rewrite (hasNonBlankMessage_odd _ _ _ H).
Qed.

Lemma errorWithNonBlankMessage_nonempty (e : Value) :
  Spec.errorWithNonBlankMessage e = true -> String.eqb (messageOf e) "" = false.
Proof.
  unfold Spec.errorWithNonBlankMessage. intro E.
  apply andb_true_iff in E as [_ E]. now apply nonBlank_nonempty.
Qed.

Lemma thrownMessage_nonempty (fallback : string) (e : Value) :
  String.eqb fallback "" = false ->
  String.eqb (Spec.thrownMessage fallback e) "" = false.
Proof.
  intro Hf. unfold Spec.thrownMessage, Spec.nonBlankString.
  destruct (Spec.errorWithNonBlankMessage e) eqn:E.
  - now apply errorWithNonBlankMessage_nonempty.
  - destruct e; try exact Hf.
    destruct (nonBlank s) eqn:Es; [now apply nonBlank_nonempty | exact Hf].
Qed.

(** ** Failure.of *)


(** C5, at an input where the code departs from it: the thunk throws
    an [Error] whose [message] has been set to the number 42.  The
    [catch] block of [Failure.of] calls [error.message.trim()], which
    is not a function on a number, so the promise returned is rejected
    with a TypeError instead of being fulfilled with a Failure that
    wraps the error. *)
Theorem C5_Failure_of_rejects_on_odd_message :
  Failure.of_ (JSome (fun _ => throw (VOtherError (RHeap 0) "Error" (VNum 42))))
    (mkWorld 1 0)
  = (Normal (Rejected (VOtherError (RHeap 1) "TypeError"
                         (VStr "error.message.trim is not a function"))),
     mkWorld 2 1).
Proof. reflexivity. Qed.

(** ** Option.get *)

(** [get] tests [!this.value]: it returns the value when it is truthy
    and throws otherwise. *)
Lemma Option_get_truthy (o : Option.t) (w : World) :
  truthy (Option.value o) = true ->
  Option.get o w = (Normal (Option.value o), w).
Proof.
  intro H. unfold Option.get. now rewrite H.
Qed.

Lemma Option_get_falsy (o : Option.t) (w : World) :
  truthy (Option.value o) = false ->
  Option.get o w =
    (Throw (VFailure (RHeap (next w)) KFailure
              "Attempted to get value from an empty Option." VUndefined),
     allocated w).
Proof.
  intro H. unfold Option.get. now rewrite H.
Qed.

(** C6, at the input where the code departs from it: [Option.ok(0)]
    is accepted and yields an Option that is present ([isOk()] true,
    [isEmpty()] false), and [get()] on it throws the "empty Option"
    Failure all the same. *)
Theorem C6_get_throws_on_present_zero :
  Option.ok (VNum 0) (mkWorld 0 0) = (Normal (Option.mk (VNum 0)), mkWorld 0 0)
  /\ Option.isOk (Option.mk (VNum 0)) = true
  /\ Option.isEmpty (Option.mk (VNum 0)) = false
  /\ Option.getOrElse (Option.mk (VNum 0)) (VNum 7) = VNum 0
  /\ Option.get (Option.mk (VNum 0)) (mkWorld 0 0) =
       (Throw (VFailure (RHeap 0) KFailure
                 "Attempted to get value from an empty Option." VUndefined),
        mkWorld 1 0).
Proof. repeat split. Qed.

(** ** Failure.fromCause *)

Lemma new_orUnknownFailure (k : Kind) (m : string) (c : Value) (w : World) :
  Failure.new k m c w =
    (Normal (Failure.mk (RHeap (next w)) k (orUnknownFailure m) c), allocated w).
Proof. reflexivity. Qed.

(** The constructor on a message whose conversion returns. *)
Lemma construct_text (k : Kind) (m c : Value) (text : string) (w : World) :
  stringify (if truthy m then m else VStr "An unknown failure occurred") = Text text ->
  Failure.construct k m c w =
    (Normal (Failure.mk (RHeap (next w)) k text c), allocated w).
Proof.
  intro H. unfold Failure.construct, bind, alloc, ToString. now rewrite H.
Qed.

(** On a string the constructor is the typed one. *)
Lemma construct_string (k : Kind) (m : string) (c : Value) (w : World) :
  Failure.construct k (VStr m) c w = Failure.new k m c w.
Proof.
  rewrite new_orUnknownFailure. apply construct_text.
  unfold orUnknownFailure. cbn [truthy].
  destruct (String.eqb m ""); reflexivity.
Qed.

Lemma fromCause_wraps (cause : Value) (message : Nullable string) (text : string)
    (w : World) :
  fromCauseText cause message = Text text ->
  (m <- Failure.effectiveMessage cause message ;; Failure.construct KFailure m cause) w
  = (Normal (Failure.mk (RHeap (next w)) KFailure text cause), allocated w).
Proof.
  unfold fromCauseText, Failure.effectiveMessage. intro H.
  assert ((if instanceofError cause
           then if truthy (messageValue cause) then stringify (messageValue cause)
                else Text "An unknown failure occurred"
           else match stringify (if truthy cause then cause
                                 else VStr "unknown cause") with
                | Text s => Text (orUnknownFailure s)
                | c => c
                end) = Text text ->
          (m <- (if instanceofError cause then ret (messageValue cause)
                 else s <- ToString (if truthy cause then cause
                                     else VStr "unknown cause") ;;
                      ret (VStr s)) ;;
           Failure.construct KFailure m cause) w
          = (Normal (Failure.mk (RHeap (next w)) KFailure text cause), allocated w))
    as Hcause.
  { clear H. intro H. destruct (instanceofError cause).
    - unfold bind at 1, ret at 1. apply construct_text.
      destruct (truthy (messageValue cause)); exact H.
    - unfold bind at 1 2, ToString.
      destruct (stringify (if truthy cause then cause else VStr "unknown cause"))
        as [s| |]; try discriminate H.
      unfold ret at 1 2. rewrite construct_string, new_orUnknownFailure.
      now injection H as <-. }
  destruct message as [| |[|c m]]; try (now apply Hcause).
  cbn [String.eqb]. unfold bind at 1, ret at 1.
  rewrite construct_string. injection H as <-. reflexivity.
Qed.

(** C7, on the code.  A cause that is a present Failure comes back as
    it is, and nothing is allocated.  Any other cause is wrapped in a
    new Failure whose message is the provided message when that is a
    non-empty string; else [cause.message] when the cause is an error
    (converted to a string when it is not one, and replaced by
    "An unknown failure occurred" when it is falsy); else the
    stringified cause when the cause is truthy, else "unknown cause",
    an empty text being replaced by "An unknown failure occurred".
    This is for the causes whose conversion to a string returns: what
    happens when it throws is left open here. *)
Theorem C7_fromCause_resolution
    (cause : Value) (message : Nullable string) (w : World) :
  (forall f, cause = Failure.toValue f -> Failure.isPresent f = true ->
     Failure.fromCause cause message w = (Normal f, w))
  /\ ((forall f, cause = Failure.toValue f -> Failure.isPresent f = false) ->
      forall text, fromCauseText cause message = Text text ->
      Failure.fromCause cause message w =
        (Normal (Failure.mk (RHeap (next w)) KFailure text cause), allocated w)).
Proof.
  split.
  - intros f -> Hp. unfold Failure.fromCause.
    rewrite toValue_isFailure, Hp. reflexivity.
  - intros Hnot text Htext. unfold Failure.fromCause.
    destruct (Failure.isFailure cause) as [f|] eqn:Ef.
    + assert (cause = Failure.toValue f) as Hc.
      { destruct cause; try discriminate. injection Ef as <-. reflexivity. }
      rewrite (Hnot f Hc). now apply fromCause_wraps.
    + now apply fromCause_wraps.
Qed.

Lemma C7_fromCause_witness :
  let inner := Failure.mk (RHeap 0) KFailure "inner" VUndefined in
  Failure.isPresent inner = true
  /\ Failure.fromCause (Failure.toValue inner) (JSome "outer") (mkWorld 1 0) =
       (Normal inner, mkWorld 1 0)
  /\ fromCauseText (VNum 42) JUndefined = Text "42"
  /\ Failure.fromCause (VNum 42) JUndefined (mkWorld 1 0) =
       (Normal (Failure.mk (RHeap 1) KFailure "42" (VNum 42)), mkWorld 2 0)
  /\ fromCauseText (VOtherError (RHeap 0) "RangeError" (VNum 7)) (JSome "") = Text "7"
  /\ Failure.fromCause (VOtherError (RHeap 0) "RangeError" (VNum 7)) (JSome "")
       (mkWorld 1 0) =
       (Normal (Failure.mk (RHeap 1) KFailure "7"
                  (VOtherError (RHeap 0) "RangeError" (VNum 7))),
        mkWorld 2 0).
Proof.
  intro inner.
  split; [reflexivity|].
  split.
  { exact (proj1 (C7_fromCause_resolution (Failure.toValue inner) (JSome "outer")
                    (mkWorld 1 0)) inner eq_refl eq_refl). }
  split; [reflexivity|].
  split.
  { refine (proj2 (C7_fromCause_resolution (VNum 42) JUndefined (mkWorld 1 0))
              _ "42" eq_refl).
    intros f Hf. destruct f; discriminate Hf. }
  split; [reflexivity|].
  refine (proj2 (C7_fromCause_resolution (VOtherError (RHeap 0) "RangeError" (VNum 7))
                   (JSome "") (mkWorld 1 0)) _ "7" eq_refl).
  intros f Hf. destruct f; discriminate Hf.
Defined.

(** C7, as stated, fails: for the cause [new Error("")] and no
    message, the rule as worded gives ["" = cause.message], the code
    gives "An unknown failure occurred". *)
Lemma C7_fromCause_empty_error_message :
  Spec.fromCauseMessage (VError (RHeap 0) "") JUndefined = ""
  /\ Failure.fromCause (VError (RHeap 0) "") JUndefined (mkWorld 1 0) =
       (Normal (Failure.mk (RHeap 1) KFailure "An unknown failure occurred"
                  (VError (RHeap 0) "")),
        mkWorld 2 0)
  /\ "An unknown failure occurred" <>
       Spec.fromCauseMessage (VError (RHeap 0) "") JUndefined.
Proof.
  split; [reflexivity|]. split; [reflexivity|]. discriminate.
Qed.

(** ** wrapFailure *)

Lemma wrapMessage_nonempty (message : Nullable string) (cause : Value) :
  String.eqb (Spec.wrapMessage message cause) "" = false.
Proof.
  assert (String.eqb
            (if Spec.errorWithNonBlankMessage cause then messageOf cause
             else "An unexpected error occurred.") "" = false) as Hc.
  { destruct (Spec.errorWithNonBlankMessage cause) eqn:E; [|reflexivity].
    now apply errorWithNonBlankMessage_nonempty. }
  unfold Spec.wrapMessage. destruct message as [| |m]; try exact Hc.
  destruct (nonBlank m) eqn:Em; [now apply nonBlank_nonempty | exact Hc].
Qed.

(** [finalMessage] where [cause.message.trim()] is not reached, or is
    a call on a string. *)
Lemma finalMessage_wrapMessage (message : Nullable string) (cause : Value) (w : World) :
  messageNotAString cause = false ->
  finalMessage message cause w = (Normal (Spec.wrapMessage message cause), w).
Proof.
  intro H.
  assert ((has <- hasNonBlankMessage "cause.message" cause ;;
           if has then ret (messageOf cause)
           else ret "An unexpected error occurred.") w
          = (Normal (if Spec.errorWithNonBlankMessage cause then messageOf cause
                     else "An unexpected error occurred."), w)) as Hc.
  { unfold bind. rewrite (hasNonBlankMessage_regular _ _ _ H).
    destruct (Spec.errorWithNonBlankMessage cause); reflexivity. }
  unfold finalMessage, Spec.wrapMessage.
  destruct message as [| |m]; try exact Hc.
  rewrite nonempty_and_nonBlank.
  destruct (nonBlank m); [reflexivity | exact Hc].
Qed.

Lemma finalMessage_explicit (m : string) (cause : Value) (w : World) :
  nonBlank m = true -> finalMessage (JSome m) cause w = (Normal m, w).
Proof.
  intro H. unfold finalMessage. now rewrite nonempty_and_nonBlank, H.
Qed.

(** What [wrapFailure] does when [cause.message.trim()] is not
    reached or is a call on a string: the order of the
    specification. *)
Lemma wrapFailure_result (message : Nullable string) (cause : Value) (w : World) :
  messageNotAString cause = false ->
  wrapFailure message cause w =
    (Normal (Failure.mk (RHeap (next w)) KFailure
               (Spec.wrapMessage message cause) cause),
     allocated w).
Proof.
  intro H. unfold wrapFailure, bind.
  rewrite (finalMessage_wrapMessage _ _ _ H). unfold Failure.wrap.
  apply new_nonempty, wrapMessage_nonempty.
Qed.

(** C8, at an input where the code departs from it: no message, and
    for cause an [Error] whose [message] has been set to the number
    42.  [wrapFailure] calls [cause.message.trim()], which is not a
    function on a number, and throws a TypeError instead of returning
    a Failure that wraps the cause with the fallback message.  (On
    [null, null] it does return the fallback.) *)
Theorem C8_wrapFailure_throws_on_odd_message :
  wrapFailure JNull (VOtherError (RHeap 0) "Error" (VNum 42)) (mkWorld 1 0)
  = (Throw (VOtherError (RHeap 1) "TypeError"
              (VStr "cause.message.trim is not a function")),
     mkWorld 2 0)
  /\ wrapFailure JNull VNull (mkWorld 1 0)
     = (Normal (Failure.mk (RHeap 1) KFailure "An unexpected error occurred." VNull),
        mkWorld 2 0).
Proof. split; reflexivity. Qed.

(** ** How misuse is signalled *)

Lemma throwIllegalArgument_throws {A} (m : string) (w : World) :
  String.eqb m "" = false -> throwsIllegalArgument w (@throwIllegalArgument A m w).
Proof.
  intro H. exists m. now apply throwIllegalArgument_eq.
Qed.

(** C9, on the code.  Misuse is not signalled in one uniform way.
    [Result.ifOk], [ifFailure], [map] and [flatMap] without their
    function, and [failure()] on a success Result, throw an
    IllegalArgument at once.  [Failure.ifPresent] and [ifEmpty]
    without their function, and [Option.ok] without a value, throw at
    once too, but a plain [Error].  The async [Failure.of] and
    [Option.of] without their function throw nothing: the promise
    they return is rejected with a plain [Error].  The async
    [Result.of] without its supplier throws nothing and rejects
    nothing: its promise is fulfilled with a failure Result that
    holds the IllegalArgument. *)
Theorem C9_misuse_signals (r : Result.t) (f : Failure.t) (v : Value) (w : World) :
  onAbsent (fun a => Result.ifOk r a w) (throwsIllegalArgument w)
  /\ onAbsent (fun a => Result.ifFailure r a w) (throwsIllegalArgument w)
  /\ onAbsent (fun a => Result.map r a w) (throwsIllegalArgument w)
  /\ onAbsent (fun a => Result.flatMap r a w) (throwsIllegalArgument w)
  /\ throwsIllegalArgument w (Result.failure' (Result.ok v) w)
  /\ onAbsent (fun a => Failure.ifPresent f a w) (throwsPlainError w)
  /\ onAbsent (fun a => Failure.ifEmpty f a w) (throwsPlainError w)
  /\ throwsPlainError w (Option.ok VNull w)
  /\ throwsPlainError w (Option.ok VUndefined w)
  /\ onAbsent (fun a => Failure.of_ a w) (rejectsWithPlainError w)
  /\ onAbsent (fun a => Option.of_ a w) (rejectsWithPlainError w)
  /\ onAbsent (fun a => Result.of_ a w) (fulfilsWithIllegalArgumentResult w).
Proof.
  unfold onAbsent.
  repeat match goal with
         | |- _ /\ _ => split
         | |- throwsIllegalArgument _ _ => now apply throwIllegalArgument_throws
         | |- throwsPlainError _ _ => eexists; reflexivity
         | |- rejectsWithPlainError _ _ => eexists; reflexivity
         | |- fulfilsWithIllegalArgumentResult _ _ => eexists; reflexivity
         end.
Qed.

(** C9, as stated, fails: [Result.of] without a supplier returns the
    IllegalArgument as a value, inside a fulfilled promise, and
    [Failure.ifPresent] without an action throws an [Error] that is
    not an IllegalArgument. *)
Lemma C9_Result_of_returns_the_misuse :
  Result.of_ JUndefined (mkWorld 0 0) =
    (Normal (Fulfilled
               (Result.failure
                  (JSome (Failure.mk (RHeap 0) KIllegalArgument
                            "Supplier provided to Result.of is null/undefined"
                            VUndefined)))),
     mkWorld 1 0)
  /\ Failure.ifPresent Failure.empty JUndefined (mkWorld 0 0) =
       (Throw (VError (RHeap 0) "Action provided to ifPresent is null/undefined"),
        mkWorld 1 0)
  /\ Failure.isFailure (VError (RHeap 0) "Action provided to ifPresent is null/undefined")
     = None.
Proof. repeat split. Qed.

(** ** ActionState *)

(** C10. [okState(value)] is the Ok variant for every value, the
    absent ones included; [initState()] is Init; [failureState(e)]
    throws an IllegalArgument exactly when [e] is absent or is the
    empty sentinel, and otherwise is the Failure variant holding
    [e]. *)
Theorem C10_ActionState_constructors (w : World) :
  (forall v, okState v = OkResult v /\ isOk (okState v) = true
             /\ isFailure (okState v) = false)
  /\ okState VNull = OkResult VNull
  /\ okState VUndefined = OkResult VUndefined
  /\ (initState = InitResult /\ isOk initState = false /\ isFailure initState = false)
  /\ (forall e, throwsIllegalArgument w (failureState e w) <-> absentOrEmpty e = true)
  /\ (forall f, absentOrEmpty (JSome f) = false ->
        failureState (JSome f) w = (Normal (FailureResult f), w)).
Proof.
  split; [intro v; repeat split|]. split; [reflexivity|]. split; [reflexivity|].
  split; [repeat split|]. split.
  - intro e. split.
    + intros [m Hm]. destruct e as [| |f]; try reflexivity.
      simpl. unfold failureState in Hm.
      destruct (Failure.isEmpty f); [reflexivity | discriminate Hm].
    + intro H. destruct e as [| |f].
      * now apply throwIllegalArgument_throws.
      * now apply throwIllegalArgument_throws.
      * simpl in H. unfold failureState. rewrite H.
        now apply throwIllegalArgument_throws.
  - intros f H. simpl in H. unfold failureState. now rewrite H.
Qed.

Lemma C10_ActionState_witness :
  let f := Failure.mk (RHeap 0) KFailure "boom" VUndefined in
  absentOrEmpty (JSome f) = false
  /\ failureState (JSome f) (mkWorld 1 0) = (Normal (FailureResult f), mkWorld 1 0)
  /\ absentOrEmpty (JSome Failure.empty) = true
  /\ throwsIllegalArgument (mkWorld 1 0) (failureState (JSome Failure.empty) (mkWorld 1 0)).
Proof.
  intro f.
  pose proof (C10_ActionState_constructors (mkWorld 1 0))
    as (_ & _ & _ & _ & Hthrow & Hbuild).
  split; [reflexivity|].
  split; [exact (Hbuild f eq_refl)|].
  split; [reflexivity|].
  exact (proj2 (Hthrow (JSome Failure.empty)) eq_refl).
Defined.

(** * Further properties of the sources *)

(** ** Failure: construction, equality, cause chain *)



Lemma Ref_eqb_sym (a b : Ref) : Ref_eqb a b = Ref_eqb b a.
Proof.
  destruct a, b; simpl; try reflexivity. apply Nat.eqb_sym.
Qed.

Lemma Ref_eqb_refl (a : Ref) : Ref_eqb a a = true.
Proof. now apply Ref_eqb_eq. Qed.

Lemma strictEq_sym (a b : Value) : strictEq a b = strictEq b a.
Proof.
  unfold strictEq.
  destruct (refOf a) as [r|] eqn:Ea, (refOf b) as [r'|] eqn:Eb; try reflexivity.
  - apply Ref_eqb_sym.
  - destruct a, b; try reflexivity; try discriminate.
    + now destruct b0, b.
    + apply Z.eqb_sym.
    + apply String.eqb_sym.
Qed.

Lemma strictEq_toValue (a b : Failure.t) :
  strictEq (Failure.toValue a) (Failure.toValue b)
  = Ref_eqb (Failure.ref a) (Failure.ref b).
Proof. reflexivity. Qed.

(** X2. [equals] is reflexive and symmetric on Failures, is false on
    every primitive, and the empty sentinel equals a Failure exactly
    when that Failure is the sentinel, whichever side it stands on. *)
Theorem Failure_equals_laws (a b : Failure.t) (v : Value) :
  Failure.equals a (Failure.toValue a) = true
  /\ Failure.equals a (Failure.toValue b) = Failure.equals b (Failure.toValue a)
  /\ Failure.equals Failure.empty (Failure.toValue b) = Failure.isEmpty b
  /\ Failure.equals b (Failure.toValue Failure.empty) = Failure.isEmpty b
  /\ (refOf v = None -> Failure.equals a v = false).
Proof.
  assert (forall x y, Failure.equals x (Failure.toValue y)
                      = Failure.equals y (Failure.toValue x)) as Hsym.
  { intros x y. unfold Failure.equals.
    rewrite !strictEq_toValue, !toValue_isFailure, (Ref_eqb_sym (Failure.ref y)).
    destruct (Ref_eqb (Failure.ref x) (Failure.ref y)); [reflexivity|].
    rewrite (orb_comm (Failure.isEmpty x)), (andb_comm (Failure.isEmpty x)).
    destruct (Failure.isEmpty y || Failure.isEmpty x); [reflexivity|].
    now rewrite String.eqb_sym, strictEq_sym. }
  assert (Failure.equals Failure.empty (Failure.toValue b) = Failure.isEmpty b) as He.
  { unfold Failure.equals. rewrite strictEq_toValue, toValue_isFailure.
    unfold Failure.isEmpty. destruct (Failure.ref b); reflexivity. }
  split.
  { unfold Failure.equals. now rewrite strictEq_toValue, Ref_eqb_refl. }
  split; [apply Hsym|]. split; [exact He|].
  split; [now rewrite Hsym|].
  intro Hv. unfold Failure.equals, strictEq. rewrite Hv.
  destruct v; try discriminate Hv; reflexivity.
Qed.

Lemma Failure_equals_witness :
  refOf (VStr "boom") = None
  /\ Failure.equals (Failure.mk (RHeap 0) KFailure "boom" VUndefined) (VStr "boom")
     = false.
Proof.
  split; [reflexivity|].
  exact (proj2 (proj2 (proj2 (proj2
           (Failure_equals_laws (Failure.mk (RHeap 0) KFailure "boom" VUndefined)
              Failure.empty (VStr "boom"))))) eq_refl).
Defined.

Lemma messageNotAString_failure (f : Failure.t) :
  messageNotAString (Failure.toValue f) = false.
Proof.
  unfold messageNotAString. cbn. apply andb_false_r.
Qed.

(** X3. [wrapExistingFailure(message, original)] throws an
    IllegalArgument when [original] is absent.  Otherwise it returns a
    new present Failure whose cause is [original] and whose message
    follows the order of [wrapFailure]; [unwrap()] on it gives
    [original] back when [original] is present, and the wrapper itself
    when [original] is the empty sentinel. *)
Theorem wrapExistingFailure_unwrap
    (message : Nullable string) (original : Failure.t) (w : World) :
  onAbsent (fun a => wrapExistingFailure message a w) (throwsIllegalArgument w)
  /\ exists g,
       wrapExistingFailure message (JSome original) w = (Normal g, allocated w)
       /\ Failure.isPresent g = true
       /\ Failure.cause g = Failure.toValue original
       /\ Failure.message g = Spec.wrapMessage message (Failure.toValue original)
       /\ Failure.unwrap g = if Failure.isPresent original then original else g.
Proof.
  split.
  { split; now apply throwIllegalArgument_throws. }
  eexists. split.
  { unfold wrapExistingFailure.
    apply wrapFailure_result, messageNotAString_failure. }
  split; [reflexivity|]. split; [reflexivity|]. split; [reflexivity|].
  unfold Failure.unwrap. cbn [Failure.cause]. now rewrite toValue_isFailure.
Qed.

(** X4. The helper [failureWithMessage(message)] throws an
    IllegalArgument exactly when the message is absent or blank after
    trimming; given any other message it returns a new present Failure
    carrying that message unchanged and no cause. *)
Theorem failureWithMessage_rejects_blank (message : Nullable string) (w : World) :
  match message with
  | JSome m =>
      if nonBlank m
      then failureWithMessage message w =
             (Normal (Failure.mk (RHeap (next w)) KFailure m VUndefined), allocated w)
      else throwsIllegalArgument w (failureWithMessage message w)
  | _ => throwsIllegalArgument w (failureWithMessage message w)
  end.
Proof.
  destruct message as [| |m]; try (now apply throwIllegalArgument_throws).
  unfold failureWithMessage, nonBlank.
  destruct (String.eqb (trim m) "") eqn:E; cbn [negb].
  - now apply throwIllegalArgument_throws.
  - unfold Failure.ofMessage. apply new_nonempty.
    destruct m; [discriminate E | reflexivity].
Qed.

(** X5. Chaining both inspectors, [f.inspectPresent(action)
    .inspectEmpty(runnable)], runs exactly one of the two functions,
    the action on a present Failure and the runnable on the empty
    sentinel, and hands [f] back when that function returns. *)
Theorem inspectPresent_inspectEmpty_chain
    (f : Failure.t) (action : Fn Failure.t unit) (runnable : Fn unit unit)
    (w : World) :
  (g <- Failure.inspectPresent f (JSome action) ;;
   Failure.inspectEmpty g (JSome runnable)) w
  = if Failure.isPresent f
    then (invoke action f ;;; ret f) w
    else (invoke runnable tt ;;; ret f) w.
Proof.
  unfold Failure.inspectPresent, Failure.inspectEmpty, Failure.ifPresent,
    Failure.ifEmpty, Failure.isPresent, bind, ret.
  destruct (Failure.isEmpty f) eqn:E; cbn [negb].
  - rewrite E. reflexivity.
  - destruct (invoke action f w) as [[[]|e|] w1]; try reflexivity.
    now rewrite E.
Qed.

Lemma ToString_normal (v : Value) (w w1 : World) (s : string) :
  ToString v w = (Normal s, w1) -> stringify v = Text s /\ w1 = w.
Proof.
  unfold ToString. destruct (stringify v); intro H; try discriminate H.
  injection H as <- <-. now split.
Qed.

Lemma construct_normal (k : Kind) (m c : Value) (f : Failure.t) (w w1 : World) :
  Failure.construct k m c w = (Normal f, w1) ->
  Failure.ref f = RHeap (next w) /\ w1 = allocated w.
Proof.
  unfold Failure.construct, bind, alloc.
  destruct (ToString (if truthy m then m else VStr "An unknown failure occurred")
              (mkWorld (S (next w)) (calls w))) as [[s| |] w2] eqn:E;
    intro H; try discriminate H.
  apply ToString_normal in E as [_ ->]. injection H as <- <-. now split.
Qed.

Lemma effectiveMessage_normal (cause : Value) (message : Nullable string)
    (m : Value) (w w1 : World) :
  Failure.effectiveMessage cause message w = (Normal m, w1) -> w1 = w.
Proof.
  assert ((if instanceofError cause then ret (messageValue cause)
           else s <- ToString (if truthy cause then cause
                               else VStr "unknown cause") ;;
                ret (VStr s)) w = (Normal m, w1) -> w1 = w) as Hc.
  { destruct (instanceofError cause).
    - intro H. now injection H.
    - unfold bind.
      destruct (ToString (if truthy cause then cause else VStr "unknown cause") w)
        as [[s| |] w2] eqn:E; intro H; try discriminate H.
      apply ToString_normal in E as [_ ->]. now injection H. }
  unfold Failure.effectiveMessage.
  destruct message as [| |s]; try exact Hc.
  destruct (String.eqb s ""); [exact Hc|]. intro H. now injection H.
Qed.

Lemma fromCause_wraps_normal (cause : Value) (message : Nullable string)
    (f : Failure.t) (w w1 : World) :
  (m <- Failure.effectiveMessage cause message ;; Failure.construct KFailure m cause) w
  = (Normal f, w1) ->
  Failure.ref f = RHeap (next w) /\ w1 = allocated w.
Proof.
  unfold bind.
  destruct (Failure.effectiveMessage cause message w) as [[m| |] w2] eqn:E;
    intro H; try discriminate H.
  apply effectiveMessage_normal in E as ->. now apply construct_normal in H.
Qed.

Lemma fromCause_of_present (f : Failure.t) (message : Nullable string) (w : World) :
  Failure.isPresent f = true ->
  Failure.fromCause (Failure.toValue f) message w = (Normal f, w).
Proof.
  intro Hp. unfold Failure.fromCause. now rewrite toValue_isFailure, Hp.
Qed.

Lemma isPresent_of_heap_ref (f : Failure.t) (n : nat) :
  Failure.ref f = RHeap n -> Failure.isPresent f = true.
Proof.
  unfold Failure.isPresent, Failure.isEmpty. now intros ->.
Qed.

(** X7. [fromCause] returns whenever the conversions to a string that
    it makes return.  Whenever it returns, what it returns is a
    present Failure made with at most one allocation, and it flattens:
    applied to its own result, with any message, it returns that
    result unchanged and allocates nothing. *)
Theorem fromCause_present_and_idempotent
    (cause : Value) (message message' : Nullable string) (w : World) :
  (forall text, fromCauseText cause message = Text text ->
     exists f w1, Failure.fromCause cause message w = (Normal f, w1))
  /\ (forall f w1, Failure.fromCause cause message w = (Normal f, w1) ->
        Failure.isPresent f = true
        /\ (w1 = w \/ w1 = allocated w)
        /\ Failure.fromCause (Failure.toValue f) message' w1 = (Normal f, w1)).
Proof.
  split.
  - intros text Ht. unfold Failure.fromCause.
    destruct (Failure.isFailure cause) as [f|];
      [destruct (Failure.isPresent f); [now exists f, w|]|];
      rewrite (fromCause_wraps _ _ _ _ Ht); eexists; eexists; reflexivity.
  - intros f w1. unfold Failure.fromCause.
    destruct (Failure.isFailure cause) as [g|].
    + destruct (Failure.isPresent g) eqn:Hg.
      * intro H. injection H as <- <-.
        split; [exact Hg|]. split; [now left|]. now apply fromCause_of_present.
      * intro H. apply fromCause_wraps_normal in H as [Hr ->].
        apply isPresent_of_heap_ref in Hr.
        split; [exact Hr|]. split; [now right|]. now apply fromCause_of_present.
    + intro H. apply fromCause_wraps_normal in H as [Hr ->].
      apply isPresent_of_heap_ref in Hr.
      split; [exact Hr|]. split; [now right|]. now apply fromCause_of_present.
Qed.

Lemma fromCause_present_and_idempotent_witness :
  fromCauseText (VBool true) JUndefined = Text "true"
  /\ Failure.fromCause (VBool true) JUndefined (mkWorld 0 0)
     = (Normal (Failure.mk (RHeap 0) KFailure "true" (VBool true)), mkWorld 1 0)
  /\ Failure.fromCause
       (Failure.toValue (Failure.mk (RHeap 0) KFailure "true" (VBool true)))
       (JSome "again") (mkWorld 1 0)
     = (Normal (Failure.mk (RHeap 0) KFailure "true" (VBool true)), mkWorld 1 0).
Proof.
  pose proof (fromCause_present_and_idempotent (VBool true) JUndefined (JSome "again")
                (mkWorld 0 0)) as [Hret Hid].
  split; [reflexivity|].
  assert (Failure.fromCause (VBool true) JUndefined (mkWorld 0 0)
          = (Normal (Failure.mk (RHeap 0) KFailure "true" (VBool true)), mkWorld 1 0))
    as Hrun by reflexivity.
  split; [exact Hrun|].
  exact (proj2 (proj2 (Hid _ _ Hrun))).
Defined.

(** ** Option *)

(** X8. [Option.ok(v)] throws a plain Error exactly when [v] is
    [null] or [undefined] and otherwise holds [v];
    [orUndefinedOrNullable] never throws, is empty exactly on those
    two values and never holds [undefined]; with [getOrElse] it is a
    null-coalescing: the default for a nullish value, the value itself
    (falsy ones included) for every other. *)
Theorem Option_factories (v d : Value) (w : World) :
  (if Option.isNullish v
   then throwsPlainError w (Option.ok v w)
   else Option.ok v w = (Normal (Option.orUndefinedOrNullable v), w)
        /\ Option.value (Option.orUndefinedOrNullable v) = v)
  /\ Option.isEmpty (Option.orUndefinedOrNullable v) = Option.isNullish v
  /\ Option.isOk (Option.orUndefinedOrNullable v) = negb (Option.isNullish v)
  /\ Option.value (Option.orUndefinedOrNullable v) <> VUndefined
  /\ Option.getOrElse (Option.orUndefinedOrNullable v) d
     = if Option.isNullish v then d else v.
Proof.
  destruct v; cbn; repeat split; try discriminate; eexists; reflexivity.
Qed.

(** X9. [Option.map] on an empty Option returns the empty Option
    without invoking the mapper.  On a present one it invokes the
    mapper once; a result of [null] or [undefined] makes [map] throw a
    plain Error (it is not turned into an empty Option), any other
    result is wrapped, and what the mapper throws passes through
    uncaught. *)
Theorem Option_map_behaviour (o : Option.t) (mapper : Fn Value Value) (w : World) :
  if Option.isEmpty o
  then Option.map o mapper w = (Normal Option.empty, w)
  else
    match invoke mapper (Option.value o) w with
    | (Normal v', w1) =>
        if Option.isNullish v'
        then throwsPlainError w1 (Option.map o mapper w)
        else Option.map o mapper w = (Normal (Option.mk v'), w1)
    | (Throw e, w1) => Option.map o mapper w = (Throw e, w1)
    | (Suspended, w1) => Option.map o mapper w = (Suspended, w1)
    end.
Proof.
  unfold Option.map, Option.isEmpty, bind.
  destruct (Option.isNull (Option.value o)); cbn [negb]; [reflexivity|].
  destruct (invoke mapper (Option.value o) w) as [[v'|e|] w1]; try reflexivity.
  unfold Option.ok.
  destruct (Option.isNullish v'); [eexists|]; reflexivity.
Qed.

(** X10. [Option.flatMap] is associative: chaining two mappers one
    after the other is the same computation as one [flatMap] with the
    mapper that chains them inside, whatever the mappers do. *)
Theorem Option_flatMap_assoc
    (o : Option.t) (f g : Fn Value Option.t) (w : World) :
  (o1 <- Option.flatMap o f ;; Option.flatMap o1 g) w
  = Option.flatMap o (fun x => o1 <- f x ;; Option.flatMap o1 g) w.
Proof.
  unfold Option.flatMap, bind, invoke, ret.
  destruct (Option.isNull (Option.value o)); reflexivity.
Qed.

(** X11. [Option.ok] is a left and a right unit of [flatMap]:
    [Option.ok(v).flatMap(f)] is [f(v)] for every [v] that [ok]
    accepts, and [o.flatMap(Option.ok)] is [o] for every Option that
    does not hold [undefined] (no factory builds one that does). *)
Theorem Option_flatMap_units
    (v : Value) (o : Option.t) (f : Fn Value Option.t) (w : World)
    (Hv : Option.isNullish v = false) (Ho : Option.value o <> VUndefined) :
  (o' <- Option.ok v ;; Option.flatMap o' f) w = invoke f v w
  /\ Option.flatMap o Option.ok w
     = (Normal o, if Option.isEmpty o then w else called w).
Proof.
  split.
  - unfold bind, Option.ok. rewrite Hv. unfold ret, Option.flatMap.
    cbn [Option.value]. destruct v; try discriminate Hv; reflexivity.
  - unfold Option.flatMap, Option.isEmpty, invoke, Option.ok, called.
    destruct o as [x]. cbn [Option.value] in *.
    destruct x; try reflexivity. now contradiction Ho.
Qed.

Lemma Option_flatMap_units_witness :
  Option.isNullish (VNum 0) = false
  /\ Option.value (Option.mk (VStr "")) <> VUndefined
  /\ (o' <- Option.ok (VNum 0) ;; Option.flatMap o' Option.ok) (mkWorld 0 0)
     = (Normal (Option.mk (VNum 0)), mkWorld 0 1)
  /\ Option.flatMap (Option.mk (VStr "")) Option.ok (mkWorld 0 0)
     = (Normal (Option.mk (VStr "")), mkWorld 0 1).
Proof.
  assert (Option.value (Option.mk (VStr "")) <> VUndefined) as Ho by discriminate.
  split; [reflexivity|]. split; [exact Ho|].
  pose proof (Option_flatMap_units (VNum 0) (Option.mk (VStr "")) Option.ok
                (mkWorld 0 0) eq_refl Ho) as [Hl Hr].
  split; [exact Hl | exact Hr].
Defined.

(** X12. [Option.of(supplier)] with a supplier never rejects and never
    throws.  It is fulfilled with the value the supplier yields (at
    once or through a fulfilled promise) when that is neither [null]
    nor [undefined], and with the empty Option when the supplier
    throws, its promise is rejected, or the value is [null] or
    [undefined]; it stays pending only if the supplier's promise
    does. *)
Theorem Option_of_outcome (supplier : Fn unit Awaitable) (w : World) :
  match invoke supplier tt w with
  | (c, w1) =>
      match supplierOutcome c with
      | Yields v =>
          if Option.isNullish v
          then Option.of_ (JSome supplier) w
               = (Normal (Fulfilled Option.empty), allocated w1)
          else Option.of_ (JSome supplier) w = (Normal (Fulfilled (Option.mk v)), w1)
      | Raises e =>
          Option.of_ (JSome supplier) w = (Normal (Fulfilled Option.empty), w1)
      | Hangs => Option.of_ (JSome supplier) w = (Normal Pending, w1)
      end
  end
  /\ ~ rejects (Option.of_ (JSome supplier) w)
  /\ ~ throws (Option.of_ (JSome supplier) w).
Proof.
  assert (match invoke supplier tt w with
          | (c, w1) =>
              match supplierOutcome c with
              | Yields v =>
                  if Option.isNullish v
                  then Option.of_ (JSome supplier) w
                       = (Normal (Fulfilled Option.empty), allocated w1)
                  else Option.of_ (JSome supplier) w
                       = (Normal (Fulfilled (Option.mk v)), w1)
              | Raises e =>
                  Option.of_ (JSome supplier) w
                  = (Normal (Fulfilled Option.empty), w1)
              | Hangs => Option.of_ (JSome supplier) w = (Normal Pending, w1)
              end
          end) as H.
  { unfold Option.of_, async, tryCatch, bind.
    destruct (invoke supplier tt w) as [c w1].
    destruct c as [[v|[v|e|]]|e|]; cbn [supplierOutcome await ret];
      try reflexivity.
    all: unfold Option.ok; destruct (Option.isNullish v); reflexivity. }
  split; [exact H|].
  destruct (invoke supplier tt w) as [c w1].
  destruct (supplierOutcome c) as [v|e|]; [destruct (Option.isNullish v)| |];
    rewrite H; split; intros (x & y & Hxy); discriminate Hxy.
Qed.

(** ** Result *)





Lemma Result_map_cases (r : Result.t) (fn : Fn Value Value) (w : World) :
  truthy (Result._value r) = true ->
  match invoke fn (Result._value r) w with
  | (Normal v', w1) => Result.map r (JSome fn) w = (Normal (Result.ok v'), w1)
  | (Throw e, w1) =>
      if messageNotAString e
      then Result.map r (JSome fn) w =
             (Throw (typeErrorAt w1 "error.message.trim is not a function"),
              allocated w1)
      else Result.map r (JSome fn) w =
             (Normal (Result.failure
                        (JSome (Failure.mk (RHeap (next w1)) KFailure
                                  (Spec.thrownMessage
                                     "An error occurred during mapping." e)
                                  e))),
              allocated w1)
  | (Suspended, w1) => Result.map r (JSome fn) w = (Suspended, w1)
  end.
Proof.
  intro Hv. unfold Result.map. rewrite Hv. cbn [negb].
  unfold tryCatch, bind.
  destruct (invoke fn (Result._value r) w) as [[v'|e|] w1]; try reflexivity.
  destruct (messageNotAString e) eqn:Ho.
  - now rewrite (errorMessage_odd _ _ _ Ho).
  - rewrite (errorMessage_regular _ _ _ Ho). unfold Failure.wrap.
    rewrite new_nonempty by (now apply thrownMessage_nonempty). reflexivity.
Qed.

Lemma Result_flatMap_cases (r : Result.t) (fn : Fn Value Result.t) (w : World) :
  truthy (Result._value r) = true ->
  match invoke fn (Result._value r) w with
  | (Normal r', w1) => Result.flatMap r (JSome fn) w = (Normal r', w1)
  | (Throw e, w1) =>
      if messageNotAString e
      then Result.flatMap r (JSome fn) w =
             (Throw (typeErrorAt w1 "error.message.trim is not a function"),
              allocated w1)
      else Result.flatMap r (JSome fn) w =
             (Normal (Result.failure
                        (JSome (Failure.mk (RHeap (next w1)) KFailure
                                  (Spec.thrownMessage
                                     "An error occurred during flatMapping." e)
                                  e))),
              allocated w1)
  | (Suspended, w1) => Result.flatMap r (JSome fn) w = (Suspended, w1)
  end.
Proof.
  intro Hv. unfold Result.flatMap. rewrite Hv. cbn [negb].
  unfold tryCatch.
  destruct (invoke fn (Result._value r) w) as [[v'|e|] w1]; try reflexivity.
  unfold bind.
  destruct (messageNotAString e) eqn:Ho.
  - now rewrite (errorMessage_odd _ _ _ Ho).
  - rewrite (errorMessage_regular _ _ _ Ho). unfold Failure.wrap.
    rewrite new_nonempty by (now apply thrownMessage_nonempty). reflexivity.
Qed.



Lemma Result_short_circuit_normal (r : Result.t) (w : World) :
  exists f w1,
    (f <- Result.failureOrNeverCalled r ;; ret (Result.failure (JSome f))) w
    = (Normal (Result.failure (JSome f)), w1).
Proof.
  unfold Result.failureOrNeverCalled, bind, ret.
  destruct (Result._failure r); eexists; eexists; reflexivity.
Qed.

Lemma flatMap_of_failure (f : Failure.t) (g : Fn Value Result.t) (w : World) :
  Result.flatMap (Result.failure (JSome f)) (JSome g) w
  = (Normal (Result.failure (JSome f)), w).
Proof. reflexivity. Qed.

Lemma flatMap_without_value (r : Result.t) (f : Fn Value Result.t) (w : World) :
  truthy (Result._value r) = false ->
  Result.flatMap r (JSome f) w
  = (f0 <- Result.failureOrNeverCalled r ;; ret (Result.failure (JSome f0))) w.
Proof.
  intro Hv. unfold Result.flatMap. now rewrite Hv.
Qed.

Lemma map_without_value (r : Result.t) (f : Fn Value Value) (w : World) :
  truthy (Result._value r) = false ->
  Result.map r (JSome f) w
  = (f0 <- Result.failureOrNeverCalled r ;; ret (Result.failure (JSome f0))) w.
Proof.
  intro Hv. unfold Result.map. now rewrite Hv.
Qed.


Lemma flatMap_throws_iff (r : Result.t) (gn : Fn Value Result.t) (w : World) :
  throws (Result.flatMap r (JSome gn) w)
  <-> truthy (Result._value r) = true
      /\ exists e w1, invoke gn (Result._value r) w = (Throw e, w1)
                      /\ messageNotAString e = true.
Proof.
  destruct (truthy (Result._value r)) eqn:Hv.
  - pose proof (Result_flatMap_cases r gn w Hv) as H.
    destruct (invoke gn (Result._value r) w) as [[v'|e|] w1].
    + rewrite H. split.
      * intros (x & y & Hxy). discriminate Hxy.
      * intros (_ & x & y & Hxy & _). discriminate Hxy.
    + destruct (messageNotAString e) eqn:Ho; rewrite H; split.
      * intros _. split; [reflexivity|]. now exists e, w1.
      * intros _. eexists. eexists. reflexivity.
      * intros (x & y & Hxy). discriminate Hxy.
      * intros (_ & x & y & Hxy & Hx). injection Hxy as <- <-. congruence.
    + rewrite H. split.
      * intros (x & y & Hxy). discriminate Hxy.
      * intros (_ & x & y & Hxy & _). discriminate Hxy.
  - destruct (Result_short_circuit_normal r w) as (f & w1 & Hs).
    rewrite (flatMap_without_value _ _ _ Hv), Hs. split.
    + intros (x & y & Hxy). discriminate Hxy.
    + intros (Hx & _). discriminate Hx.
Qed.



(** X16. [flatMap] is associative:
    [r.flatMap(f).flatMap(g)] is the same computation as
    [r.flatMap(x => f(x).flatMap(g))] (the same Result, the same
    allocations, the same calls), on every Result and whatever [f]
    does, for every [g] that never throws an Error whose message is
    truthy and not a string. *)
Theorem Result_flatMap_assoc
    (r : Result.t) (f g : Fn Value Result.t) (w : World)
    (Hg : forall x w0 e w1, g x w0 = (Throw e, w1) -> messageNotAString e = false) :
  (r1 <- Result.flatMap r (JSome f) ;; Result.flatMap r1 (JSome g)) w
  = Result.flatMap r (JSome (fun x => r1 <- f x ;; Result.flatMap r1 (JSome g))) w.
Proof.
  destruct (truthy (Result._value r)) eqn:Hv.
  - pose proof (Result_flatMap_cases r f w Hv) as Hl.
    pose proof (Result_flatMap_cases r
                  (fun x => r1 <- f x ;; Result.flatMap r1 (JSome g)) w Hv) as Hr.
    unfold bind at 1. unfold invoke in Hl, Hr. unfold bind at 1 in Hr.
    destruct (f (Result._value r) (mkWorld (next w) (S (calls w))))
      as [[r1|e|] w1].
    + rewrite Hl. revert Hr.
      destruct (Result.flatMap r1 (JSome g) w1) as [[r2|e2|] w2] eqn:Eg;
        intro Hr.
      * symmetry. exact Hr.
      * exfalso.
        assert (throws (Result.flatMap r1 (JSome g) w1)) as Ht
          by (now exists e2, w2).
        apply flatMap_throws_iff in Ht as (_ & e & w3 & He & Ho).
        unfold invoke in He. rewrite (Hg _ _ _ _ He) in Ho. discriminate Ho.
      * symmetry. exact Hr.
    + destruct (messageNotAString e).
      * rewrite Hl. symmetry. exact Hr.
      * rewrite Hl. etransitivity; [|symmetry; exact Hr].
        apply flatMap_of_failure.
    + rewrite Hl. symmetry. exact Hr.
  - destruct (Result_short_circuit_normal r w) as (f0 & w1 & Hs).
    unfold bind at 1.
    rewrite !(flatMap_without_value _ _ _ Hv), Hs.
    apply flatMap_of_failure.
Qed.

Lemma Result_flatMap_assoc_witness :
  (forall x w0 e w1,
     pureFn Result.ok x w0 = (Throw e, w1) -> messageNotAString e = false)
  /\ (r1 <- Result.flatMap (Result.ok (VNum 100)) (JSome loudMapper) ;;
      Result.flatMap r1 (JSome (pureFn Result.ok))) (mkWorld 0 0)
     = Result.flatMap (Result.ok (VNum 100))
         (JSome (fun x => r1 <- loudMapper x ;;
                          Result.flatMap r1 (JSome (pureFn Result.ok))))
         (mkWorld 0 0).
Proof.
  assert (forall x w0 e w1,
            pureFn Result.ok x w0 = (Throw e, w1) -> messageNotAString e = false)
    as Hg by (intros x w0 e w1 H; discriminate H).
  split; [exact Hg|].
  exact (Result_flatMap_assoc (Result.ok (VNum 100)) loudMapper (pureFn Result.ok)
           (mkWorld 0 0) Hg).
Defined.

(** X17. [Result.ok] is a unit of [flatMap] on truthy values: for a
    truthy [v], [Result.ok(v).flatMap(f)] is [f(v)] whenever [f] does
    not throw, and [Result.ok(v).flatMap(Result.ok)] is
    [Result.ok(v)]. *)
Theorem Result_flatMap_units
    (v : Value) (f : Fn Value Result.t) (w : World)
    (Hv : truthy v = true)
    (Hf : ~ throws (invoke f v w)) :
  Result.flatMap (Result.ok v) (JSome f) w = invoke f v w
  /\ Result.flatMap (Result.ok v) (JSome (pureFn Result.ok)) w
     = (Normal (Result.ok v), called w).
Proof.
  split.
  - pose proof (Result_flatMap_cases (Result.ok v) f w Hv) as H.
    cbn [Result.ok Result._value] in H.
    destruct (invoke f v w) as [[r'|e|] w1]; try exact H.
    exfalso. apply Hf. now exists e, w1.
  - exact (Result_flatMap_cases (Result.ok v) (pureFn Result.ok) w Hv).
Qed.

Lemma Result_flatMap_units_witness :
  truthy (VNum 100) = true
  /\ Result.flatMap (Result.ok (VNum 100))
       (JSome (pureFn (fun n => Result.ok (VStr "ten")))) (mkWorld 0 0)
     = (Normal (Result.ok (VStr "ten")), mkWorld 0 1).
Proof.
  split; [reflexivity|].
  refine (proj1 (Result_flatMap_units (VNum 100)
                   (pureFn (fun n => Result.ok (VStr "ten"))) (mkWorld 0 0)
                   eq_refl _)).
  intros (e & w' & H). discriminate H.
Defined.

(** X18. For functions without effects, [r.map(f).map(g)] gives the
    same Result and the same allocations as [r.map(x => g(f(x)))],
    provided [f] does not send the value of [r] to a falsy one. *)
Theorem Result_map_composition
    (r : Result.t) (f g : Value -> Value) (w : World)
    (Hf : truthy (Result._value r) = true -> truthy (f (Result._value r)) = true) :
  exists r2 w1 w2,
    (r1 <- Result.map r (JSome (pureFn f)) ;; Result.map r1 (JSome (pureFn g))) w
    = (Normal r2, w1)
    /\ Result.map r (JSome (pureFn (fun x => g (f x)))) w = (Normal r2, w2)
    /\ next w1 = next w2.
Proof.
  destruct (truthy (Result._value r)) eqn:Hv.
  - assert (Result.map r (JSome (pureFn f)) w
            = (Normal (Result.ok (f (Result._value r))), called w)) as H1
      by exact (Result_map_cases r (pureFn f) w Hv).
    assert (Result.map r (JSome (pureFn (fun x => g (f x)))) w
            = (Normal (Result.ok (g (f (Result._value r)))), called w)) as H2
      by exact (Result_map_cases r (pureFn (fun x => g (f x))) w Hv).
    assert (Result.map (Result.ok (f (Result._value r))) (JSome (pureFn g)) (called w)
            = (Normal (Result.ok (g (f (Result._value r)))), called (called w))) as H3
      by exact (Result_map_cases (Result.ok (f (Result._value r))) (pureFn g)
                  (called w) (Hf eq_refl)).
    exists (Result.ok (g (f (Result._value r)))), (called (called w)), (called w).
    unfold bind at 1. rewrite H1.
    split; [exact H3|]. split; [exact H2|]. reflexivity.
  - destruct (Result_short_circuit_normal r w) as (f0 & w1 & Hs).
    exists (Result.failure (JSome f0)), w1, w1.
    unfold bind at 1.
    rewrite !(map_without_value _ _ _ Hv), Hs.
    split; [reflexivity|]. split; reflexivity.
Qed.

Lemma Result_map_composition_witness :
  truthy (VNum 5) = true
  /\ exists r2 w1 w2,
    (r1 <- Result.map (Result.ok (VNum 20))
             (JSome (pureFn (fun _ => VNum 5))) ;;
     Result.map r1 (JSome (pureFn (fun _ => VStr "Result is 50")))) (mkWorld 0 0)
    = (Normal r2, w1)
    /\ Result.map (Result.ok (VNum 20))
         (JSome (pureFn (fun x => VStr "Result is 50"))) (mkWorld 0 0)
       = (Normal r2, w2)
    /\ next w1 = next w2.
Proof.
  split; [reflexivity|].
  exact (Result_map_composition (Result.ok (VNum 20)) (fun _ => VNum 5)
           (fun _ => VStr "Result is 50") (mkWorld 0 0) (fun _ => eq_refl)).
Defined.

(** X19. [expect(prefix)] returns the value of a Result whose value is
    truthy and allocates nothing.  On a failure Result holding [f] it
    throws a new Failure with message ["<prefix>: <f.message>"] and
    cause [f], so [unwrap()] on what was thrown gives [f] back when
    [f] is present; [get()] is [expect] with its fixed prefix. *)
Theorem Result_expect_on_failure
    (f : Failure.t) (v : Value) (prefix : string) (w : World) :
  let thrown := Failure.mk (RHeap (next w)) KFailure
                  (prefix ++ ": " ++ Failure.message f) (Failure.toValue f) in
  Result.expect (Result.failure (JSome f)) prefix w
  = (Throw (Failure.toValue thrown), allocated w)
  /\ Failure.unwrap thrown = (if Failure.isPresent f then f else thrown)
  /\ Result.get (Result.failure (JSome f)) w
     = Result.expect (Result.failure (JSome f))
         "No value present, Result is in a failure state." w
  /\ (if truthy v
      then Result.expect (Result.ok v) prefix w = (Normal v, w)
      else throws (Result.expect (Result.ok v) prefix w)).
Proof.
  intro thrown.
  split.
  { unfold Result.expect, bind, Failure.wrap. cbn [Result.failure Result._value truthy negb].
    rewrite new_nonempty by (now apply append_nonempty_r).
    reflexivity. }
  split.
  { unfold Failure.unwrap, thrown. cbn [Failure.cause].
    now rewrite toValue_isFailure. }
  split; [reflexivity|].
  destruct (truthy v) eqn:Hv.
  - unfold Result.expect. cbn [Result.ok Result._value]. now rewrite Hv.
  - eexists. eexists. now apply expect_falsy.
Qed.

(** X20. Chaining both inspectors of a Result,
    [r.inspectOk(onValue).inspectFailure(onFailure)], runs exactly one
    of the two functions when [r] holds a truthy value or a Failure:
    [onValue] on the value, or [onFailure] on the Failure held; and it
    hands [r] back when that function returns. *)
Theorem Result_inspect_chain
    (v : Value) (f : Failure.t)
    (onValue : Fn Value unit) (onFailure : Fn Failure.t unit) (w : World)
    (Hv : truthy v = true) :
  (r <- Result.inspectOk (Result.ok v) (JSome onValue) ;;
   Result.inspectFailure r (JSome onFailure)) w
  = (invoke onValue v ;;; ret (Result.ok v)) w
  /\ (r <- Result.inspectOk (Result.failure (JSome f)) (JSome onValue) ;;
      Result.inspectFailure r (JSome onFailure)) w
     = (invoke onFailure f ;;; ret (Result.failure (JSome f))) w.
Proof.
  split.
  - unfold Result.inspectOk, Result.inspectFailure, Result.ifOk, Result.ifFailure,
      bind, ret.
    cbn [Result.ok Result._value]. rewrite Hv.
    destruct (invoke onValue v w) as [[[]|e|] w1]; reflexivity.
  - reflexivity.
Qed.

Lemma Result_inspect_chain_witness :
  truthy (VNum 123) = true
  /\ (r <- Result.inspectOk (Result.ok (VNum 123)) (JSome (pureFn (fun _ => tt))) ;;
      Result.inspectFailure r (JSome (pureFn (fun _ => tt)))) (mkWorld 0 0)
     = (Normal (Result.ok (VNum 123)), mkWorld 0 1).
Proof.
  split; [reflexivity|].
  exact (proj1 (Result_inspect_chain (VNum 123) Failure.empty
                  (pureFn (fun _ => tt)) (pureFn (fun _ => tt)) (mkWorld 0 0)
                  eq_refl)).
Defined.

(** ** Pair *)

Lemma Ref_eqb_next (n : nat) : Ref_eqb (RHeap n) (RHeap (S n)) = false.
Proof.
  simpl. apply Nat.eqb_neq. lia.
Qed.

(** X21. [Pair.of(a, b)] keeps both elements.  [equals] is reflexive
    and symmetric and false on anything that is not a Pair; two Pairs
    built one after the other are equal exactly when their elements
    are pairwise [===], so a Pair holding [NaN] equals itself but no
    second Pair built from the same elements. *)
Theorem Pair_equals_laws (a b c d v : Value) (p q : Pair.t) (w : World) :
  (p1 <- Pair.of_ a b ;; p2 <- Pair.of_ c d ;;
   ret (Pair.getFirst p1, Pair.getSecond p1, Pair.equals p1 (Pair.IsPair p2))) w
  = (Normal (a, b, strictEq a c && strictEq b d), allocated (allocated w))
  /\ Pair.equals p (Pair.IsPair p) = true
  /\ Pair.equals p (Pair.IsPair q) = Pair.equals q (Pair.IsPair p)
  /\ Pair.equals p (Pair.NotPair v) = false
  /\ (p1 <- Pair.of_ VNaN b ;; p2 <- Pair.of_ VNaN b ;;
      ret (Pair.equals p1 (Pair.IsPair p1), Pair.equals p1 (Pair.IsPair p2))) w
     = (Normal (true, false), allocated (allocated w)).
Proof.
  split.
  { cbv [bind Pair.of_ alloc ret Pair.equals allocated Pair.ref Pair._first
           Pair._second Pair.getFirst Pair.getSecond next calls].
    now rewrite Ref_eqb_next. }
  split.
  { unfold Pair.equals. now rewrite Ref_eqb_refl. }
  split.
  { unfold Pair.equals. rewrite (Ref_eqb_sym (Pair.ref q)).
    now rewrite (strictEq_sym (Pair._first q)), (strictEq_sym (Pair._second q)). }
  split; [reflexivity|].
  cbv [bind Pair.of_ alloc ret Pair.equals allocated Pair.ref Pair._first
         Pair._second next calls].
  now rewrite Ref_eqb_next, Ref_eqb_refl.
Qed.

(** ** InvalidRequest *)

Lemma string_append_assoc (a b c : string) : (a ++ b) ++ c = a ++ (b ++ c).
Proof.
  induction a as [|x a IH]; simpl; [reflexivity | now rewrite IH].
Qed.

(** X22. The constructor of [InvalidRequest] throws a plain Error when
    it is given a key without a reason, or neither a string nor a Map.
    Otherwise it yields a present Failure of class InvalidRequest
    without cause whose message is never replaced by the default: the
    key and the reason spelled out, or the entries of the map in
    insertion order as ["k: [r1, r2]"] joined by ["; "]; the reasons
    kept are the one-entry map of the key, or the map given. *)
Theorem InvalidRequest_new_behaviour
    (args : InvalidRequest.Args) (k r1 r2 : string) (w : World) :
  match args with
  | InvalidRequest.KeyReason key (Some reason) =>
      InvalidRequest.new args w =
        (Normal (InvalidRequest.mk
                   (Failure.mk (RHeap (next w)) KInvalidRequest
                      ("Invalid request for key " ++ key ++ " with reasons " ++ reason)
                      VUndefined)
                   [(key, [reason])]),
         allocated w)
  | InvalidRequest.ReasonsMap reasons =>
      InvalidRequest.new args w =
        (Normal (InvalidRequest.mk
                   (Failure.mk (RHeap (next w)) KInvalidRequest
                      ("Invalid request with reasons {"
                         ++ String.concat "; "
                              (List.map InvalidRequest.entryText reasons)
                         ++ "}")
                      VUndefined)
                   reasons),
         allocated w)
  | _ => throwsPlainError w (InvalidRequest.new args w)
  end
  /\ InvalidRequest.new (InvalidRequest.ReasonsMap [(k, [r1; r2])]) w =
       (Normal (InvalidRequest.mk
                  (Failure.mk (RHeap (next w)) KInvalidRequest
                     ("Invalid request with reasons {" ++ k ++ ": ["
                        ++ r1 ++ ", " ++ r2 ++ "]}")
                     VUndefined)
                  [(k, [r1; r2])]),
        allocated w).
Proof.
  assert (forall reasons,
            InvalidRequest.new (InvalidRequest.ReasonsMap reasons) w =
              (Normal (InvalidRequest.mk
                         (Failure.mk (RHeap (next w)) KInvalidRequest
                            ("Invalid request with reasons {"
                               ++ String.concat "; "
                                    (List.map InvalidRequest.entryText reasons)
                               ++ "}")
                            VUndefined)
                         reasons),
               allocated w)) as Hmap.
  { intro reasons. unfold InvalidRequest.new, bind.
    rewrite new_nonempty by reflexivity. reflexivity. }
  split.
  - destruct args as [key [reason|]|reasons|].
    + unfold InvalidRequest.new, bind.
      rewrite new_nonempty by reflexivity. reflexivity.
    + eexists. reflexivity.
    + apply Hmap.
    + eexists. reflexivity.
  - rewrite Hmap. unfold InvalidRequest.entryText.
    cbn [List.map String.concat fst snd].
    rewrite !string_append_assoc. reflexivity.
Qed.

(** ** Failure.of with orThrow *)

